(** * h2o-py [h2o/model/model_base.py]: the [ModelBase] client-side model handle

    A shallow embedding of the parts of [ModelBase] that select metric
    blocks, reconcile build parameters, rename the model and gate reads on
    the state of an outstanding job, followed by the properties of these
    operations.

    Python objects are mutated in place and every call may raise, so the
    methods are embedded in a state-and-exception monad [Py] over a [World]
    holding the object ([self]), the behaviour of the remote cluster and
    the log of the calls made to the collaborators. *)

From Stdlib Require Import String Ascii QArith.
From stdpp Require Import gmap strings list fin_maps.
From stdpp Require Import pretty.

Open Scope string_scope.
Set Warnings "-register-all".

(** ** Python values *)

(** Deserialised JSON as the client sees it.  A JSON object keeps its items
    as an association list, the shape [dict.get] is applied to. *)
Inductive pyval : Type :=
  | VNone
  | VBool (b : bool)
  | VNum (q : Q)
  | VStr (s : string)
  | VDict (items : list (string * pyval)).

(** [d.get(key, None)] on the items of a dict. *)
Fixpoint dict_get (items : list (string * pyval)) (key : string) : pyval :=
  match items with
  | [] => VNone
  | (k, v) :: rest => if String.eqb k key then v else dict_get rest key
  end.

(** [str(x)] for an attribute that holds a string or [None], as used by the
    [%s] conversion. *)
Definition str_of (x : option string) : string :=
  match x with
  | Some s => s
  | None => "None"
  end.



(** ** Exceptions and collaborator calls *)

Inductive exn : Type :=
  | TypeError (msg : string)
  | AttributeError (msg : string)
  | KeyError (key : string)
  | H2OValueError (msg : string)
  | H2OServerError (msg : string).

(** How a call ends. *)
Inductive outcome (A : Type) : Type :=
  | Return (a : A)
  | Raise (e : exn).
Arguments Return {A} a.
Arguments Raise {A} e.

(** An [H2OJob] handle; the class lives in [h2o/job.py] and only its key is
    visible from here. *)
Record H2OJob : Type := { job_key : string }.

(** An [H2OFrame] handle. *)
Record H2OFrame : Type := { frame_id : string }.

(** What leaves the object: requests to the cluster, calls on the job
    handle, [show()] calls on collaborators and printed lines. *)
Inductive event : Type :=
  | Rapids (expr : string)
  | Api (endpoint : string)
  | PollOnce (j : H2OJob)
  | Poll (j : H2OJob)
  | ShowOf (what : string)
  | Print (line : string).

(** The statistics a metrics view exposes as methods. *)
Inductive statistic : Type :=
  | R2 | MSE | RMSE | MAE | RMSLE | LogLoss | MeanResidualDeviance
  | AUC | AIC | Gini
  | ResidualDeviance | ResidualDegreesOfFreedom
  | NullDeviance | NullDegreesOfFreedom.

(** The collaborator classes whose code is outside this module:
    [H2OModelMetrics] views ([_metrics_class]) and [H2OTwoDimTable]. *)
Class Collaborators : Type := {
  Metrics : Type;
  Table : Type;
  DataFrame : Type;
  RawMetrics : Type;
  (** [v.mse()], [v.r2()], ... on a metrics view *)
  metric_call : statistic → Metrics → pyval;
  (** truth value of a present object in [if tm: ...] *)
  metrics_truthy : Metrics → bool;
  table_truthy : Table → bool;
  (** how [tm.show()] ends: [None] when it returns *)
  metrics_show : Metrics → option exn;
  table_show : Table → option exn;
  (** [table.as_data_frame()] *)
  as_data_frame : Table → DataFrame;
  (** [self._metrics_class(raw_metrics, algo=...)] *)
  make_metrics : option RawMetrics → string → Metrics;
}.

Section ModelBase.

Context `{C : Collaborators}.

(** ** The model document *)

(** [_model_json["output"]].  The keys the code subscripts directly are
    fields holding [None] when the server sent null; the keys the code tests
    with [in] may also be missing (outer [None]). *)
Record Output : Type := {
  training_metrics : option Metrics;
  validation_metrics : option Metrics;
  cross_validation_metrics : option Metrics;
  cross_validation_metrics_summary : option (option Table);
  model_summary : option (option Table);
  scoring_history_tbl : option (option Table);
  variable_importances : option (option Table);
}.

Record ModelJson : Type := {
  algo : string;
  algo_full_name : string;
  output : Output;
}.

(** One entry of [parms]. *)
Record Parm : Type := {
  default_value : pyval;
  actual_value : pyval;
}.

(** One entry of the [params] view: [{"default": ..., "actual": ...}]. *)
Record ParamView : Type := {
  default : pyval;
  actual : pyval;
}.

(** The instance attributes set by [__init__]. *)
Record ModelBase : Type := {
  class_name : string;
  _id : option string;
  _model_json : option ModelJson;
  parms : gmap string Parm;
  _estimator_type : string;
  _future : bool;
  _job : option H2OJob;
}.

(** One item of [res["model_metrics"]]: the name of its frame ([None] when
    [mm["frame"]] is null) and the raw block. *)
Record ModelMetricsJson : Type := {
  mm_frame : option string;
  mm_raw : RawMetrics;
}.

(** How the cluster and the job answer; [None] is a normal return. *)
Record Cluster : Type := {
  rapids_reply : string → option exn;
  api_model_metrics : string → exn + list ModelMetricsJson;
  poll_once_reply : H2OJob → option exn;
}.

Record World : Type := {
  self : ModelBase;
  cluster : Cluster;
  log : list event;
}.

(** ** The monad *)

Definition Py (A : Type) : Type := World → outcome A * World.

Definition ret {A} (a : A) : Py A := λ w, (Return a, w).

Definition raise {A} (e : exn) : Py A := λ w, (Raise e, w).

Definition bind {A B} (m : Py A) (k : A → Py B) : Py B :=
  λ w, match m w with
       | (Return a, w') => k a w'
       | (Raise e, w') => (Raise e, w')
       end.

Notation "'let*' x ':=' m 'in' k" := (bind m (λ x, k))
  (at level 10, x name, m at level 100, k at level 200).
Notation "m ';;' k" := (bind m (λ _, k))
  (at level 100, k at level 200, right associativity).

Definition get_self : Py ModelBase := λ w, (Return (self w), w).


Definition emit (e : event) : Py unit :=
  λ w, (Return tt, {| self := self w; cluster := cluster w; log := log w ++ [e] |}).

Definition reply (r : option exn) : Py unit :=
  match r with
  | None => ret tt
  | Some e => raise e
  end.


(** [h2o.api("POST /3/ModelMetrics/...")] *)
Definition h2o_api_model_metrics (endpoint : string) : Py (list ModelMetricsJson) :=
  emit (Api endpoint) ;;
  λ w, match api_model_metrics (cluster w) endpoint with
       | inl e => (Raise e, w)
       | inr res => (Return res, w)
       end.

(** [job.poll_once()] *)
Definition job_poll_once (j : H2OJob) : Py unit :=
  emit (PollOnce j) ;;
  λ w, reply (poll_once_reply (cluster w) j) w.

Definition print (line : string) : Py unit := emit (Print line).

(** [x["key"]] where [x] is the document or [None]. *)
Definition subscript_json (j : option ModelJson) : Py ModelJson :=
  match j with
  | Some doc => ret doc
  | None => raise (TypeError "'NoneType' object is not subscriptable")
  end.

(** [x.method] where [x] is an object or [None]. *)
Definition attr_of {A} (x : option A) (name : string) : Py A :=
  match x with
  | Some a => ret a
  | None => raise (AttributeError ("'NoneType' object has no attribute '" +:+ name +:+ "'"))
  end.

(** [for k in d: acc = body(k, d[k], acc)], stopping at the first
    exception. *)
Definition for_items {A B} (d : gmap string A)
    (body : string → A → B → Py B) (init : B) : Py B :=
  map_fold (λ k v rest, let* acc := rest in body k v acc) (ret init) d.

(** ** [model_id] *)

Definition model_id : Py (option string) :=
  let* me := get_self in ret (_id me).




(** ** Parameter views *)

(** [params]:
<<
    params = {}
    for p in self.parms:
        params[p] = {"default": self.parms[p]["default_value"],
                     "actual": self.parms[p]["actual_value"]}
    return params
>> *)
Definition params : Py (gmap string ParamView) :=
  let* me := get_self in
  for_items (parms me)
    (λ p entry params,
       ret (<[p := {| default := default_value entry;
                      actual := actual_value entry |}]> params))
    ∅.

(** [default_params] *)
Definition default_params : Py (gmap string pyval) :=
  let* me := get_self in
  for_items (parms me)
    (λ p entry params, ret (<[p := default_value entry]> params))
    ∅.

(** The table [params_to_select] of [actual_params]. *)
Definition params_to_select : list (string * string) :=
  [("model_id", "name");
   ("response_column", "column_name");
   ("training_frame", "name");
   ("validation_frame", "name")].

Fixpoint assoc (table : list (string * string)) (key : string) : option string :=
  match table with
  | [] => None
  | (k, v) :: rest => if String.eqb k key then Some v else assoc rest key
  end.

(** [x.get(key, None)]: only a dict has the method. *)
Definition call_get (x : pyval) (key : string) : Py pyval :=
  match x with
  | VDict items => ret (dict_get items key)
  | VNone => raise (AttributeError "'NoneType' object has no attribute 'get'")
  | VBool _ => raise (AttributeError "'bool' object has no attribute 'get'")
  | VNum _ => raise (AttributeError "'float' object has no attribute 'get'")
  | VStr _ => raise (AttributeError "'str' object has no attribute 'get'")
  end.

(** [actual_params]:
<<
    for p in self.parms:
        if p in params_to_select.keys():
            params[p] = self.parms[p]["actual_value"].get(params_to_select[p], None)
        else:
            params[p] = self.parms[p]["actual_value"]
>> *)
Definition actual_params : Py (gmap string pyval) :=
  let* me := get_self in
  for_items (parms me)
    (λ p entry params,
       match assoc params_to_select p with
       | Some field =>
           let* v := call_get (actual_value entry) field in
           ret (<[p := v]> params)
       | None => ret (<[p := actual_value entry]> params)
       end)
    ∅.

(** [full_parameters]: [return self.parms] *)
Definition full_parameters : Py (gmap string Parm) :=
  let* me := get_self in ret (parms me).

(** ** Metric selection *)

(** [_get_metrics(o, train, valid, xval)] *)
Definition _get_metrics (o : ModelBase) (train valid xval : bool)
    : Py (gmap string (option Metrics)) :=
  let* doc := subscript_json (_model_json o) in
  let output := output doc in
  let metrics : gmap string (option Metrics) := ∅ in
  let metrics := if train then <["train" := training_metrics output]> metrics else metrics in
  let metrics := if valid then <["valid" := validation_metrics output]> metrics else metrics in
  let metrics := if xval then <["xval" := cross_validation_metrics output]> metrics else metrics in
  let metrics := if Nat.eqb (size metrics) 0
                 then <["train" := training_metrics output]> metrics else metrics in
  ret metrics.

(** What a scalar accessor hands back: one value, or the dict keyed by
    role. *)
Inductive accessor_result : Type :=
  | Single (v : pyval)
  | PerRole (m : gmap string pyval).

(** [list(m.values())[0] if len(m) == 1 else m] *)
Definition single_or_dict (m : gmap string pyval) : Py accessor_result :=
  if Nat.eqb (size m) 1 then
    match (map_to_list m).*2 with
    | v :: _ => ret (Single v)
    | [] => raise (TypeError "list index out of range")
    end
  else ret (PerRole m).

(** [None if v is None else v.<stat>()] *)
Definition stat_or_none (s : statistic) (v : option Metrics) : pyval :=
  match v with
  | None => VNone
  | Some view => metric_call s view
  end.

(** The body shared, word for word, by the ten scalar accessors:
<<
    tm = ModelBase._get_metrics(self, train, valid, xval)
    m = {}
    for k, v in viewitems(tm): m[k] = None if v is None else v.<stat>()
    return list(m.values())[0] if len(m) == 1 else m
>> *)
Definition scalar_accessor (s : statistic) (train valid xval : bool)
    : Py accessor_result :=
  let* me := get_self in
  let* tm := _get_metrics me train valid xval in
  let* m := for_items tm (λ k v m, ret (<[k := stat_or_none s v]> m)) ∅ in
  single_or_dict m.

Definition r2 := scalar_accessor R2.
Definition mse := scalar_accessor MSE.
Definition rmse := scalar_accessor RMSE.
Definition mae := scalar_accessor MAE.
Definition rmsle := scalar_accessor RMSLE.
Definition logloss := scalar_accessor LogLoss.
Definition mean_residual_deviance := scalar_accessor MeanResidualDeviance.
Definition auc := scalar_accessor AUC.
Definition aic := scalar_accessor AIC.
Definition gini := scalar_accessor Gini.

(** ** The deviance and degrees-of-freedom accessors *)

(** The four accessors differ only in the method called at the end:
<<
    if xval: raise H2OValueError("Cross-validation metrics are not available.")
    if not train and not valid: train = True
    if train and valid:         train = True
    if train:
        return self._model_json["output"]["training_metrics"].<stat>()
    else:
        return self._model_json["output"]["validation_metrics"].<stat>()
>> *)
Definition method_name (s : statistic) : string :=
  match s with
  | R2 => "r2" | MSE => "mse" | RMSE => "rmse" | MAE => "mae"
  | RMSLE => "rmsle" | LogLoss => "logloss"
  | MeanResidualDeviance => "mean_residual_deviance"
  | AUC => "auc" | AIC => "aic" | Gini => "gini"
  | ResidualDeviance => "residual_deviance"
  | ResidualDegreesOfFreedom => "residual_degrees_of_freedom"
  | NullDeviance => "null_deviance"
  | NullDegreesOfFreedom => "null_degrees_of_freedom"
  end.

Definition deviance_accessor (s : statistic) (train valid xval : bool) : Py pyval :=
  let* me := get_self in
  if xval then raise (H2OValueError "Cross-validation metrics are not available.")
  else
    let train := if negb train && negb valid then true else train in
    let train := if train && valid then true else train in
    if train then
      let* doc := subscript_json (_model_json me) in
      let* view := attr_of (training_metrics (output doc)) (method_name s) in
      ret (metric_call s view)
    else
      let* doc := subscript_json (_model_json me) in
      let* view := attr_of (validation_metrics (output doc)) (method_name s) in
      ret (metric_call s view).

Definition residual_deviance := deviance_accessor ResidualDeviance.
Definition residual_degrees_of_freedom := deviance_accessor ResidualDegreesOfFreedom.
Definition null_deviance := deviance_accessor NullDeviance.
Definition null_degrees_of_freedom := deviance_accessor NullDegreesOfFreedom.

(** ** [model_performance] *)

(** The [test_data] argument when it is not [None]. *)
Inductive test_arg : Type :=
  | IsFrame (f : H2OFrame)
  | NotFrame (v : pyval).

Definition metrics_endpoint (id : option string) (frame : string) : string :=
  "POST /3/ModelMetrics/models/" +:+ str_of id +:+ "/frames/" +:+ frame.

(** The first item of [res["model_metrics"]] computed on the given frame. *)
Definition select_raw (res : list ModelMetricsJson) (frame : string)
    : option RawMetrics :=
  mm_raw <$> List.find
    (λ mm, match mm_frame mm with
           | Some name => String.eqb name frame
           | None => false
           end) res.

(** [model_performance(test_data, train, valid, xval)].  With [test_data]
    not a frame, building the message of the [ValueError] adds a type to
    a string, which is what is raised. *)
Definition model_performance (test_data : option test_arg)
    (train valid xval : bool) : Py (option Metrics) :=
  let* me := get_self in
  match test_data with
  | None =>
      let train := if negb train && negb valid && negb xval then true else train in
      if train then
        let* doc := subscript_json (_model_json me) in
        ret (training_metrics (output doc))
      else if valid then
        let* doc := subscript_json (_model_json me) in
        ret (validation_metrics (output doc))
      else if xval then
        let* doc := subscript_json (_model_json me) in
        ret (cross_validation_metrics (output doc))
      else ret None
  | Some (NotFrame _) =>
      raise (TypeError "must be str, not type")
  | Some (IsFrame frame) =>
      let* id := model_id in
      let* res := h2o_api_model_metrics (metrics_endpoint id (frame_id frame)) in
      let raw_metrics := select_raw res (frame_id frame) in
      let* doc := subscript_json (_model_json me) in
      ret (Some (make_metrics raw_metrics (algo doc)))
  end.

(** ** Reads of the document *)

(** [key in model and model[key] is not None] *)
Definition present (x : option (option Table)) : option Table :=
  match x with
  | Some (Some t) => Some t
  | _ => None
  end.

(** [scoring_history()] *)
Definition scoring_history : Py (option DataFrame) :=
  let* me := get_self in
  let* doc := subscript_json (_model_json me) in
  let model := output doc in
  match present (scoring_history_tbl model) with
  | Some t => ret (Some (as_data_frame t))
  | None => print "No score history for this model" ;; ret None
  end.

(** [summary()] *)
Definition summary : Py (option Table) :=
  let* me := get_self in
  let* doc := subscript_json (_model_json me) in
  let model := output doc in
  match present (model_summary model) with
  | Some t => ret (Some t)
  | None => print "No model summary for this model" ;; ret None
  end.

(** [model["key"]] for a key the document may lack. *)
Definition subscript_key {A} (x : option A) (key : string) : Py A :=
  match x with
  | Some a => ret a
  | None => raise (KeyError key)
  end.

(** [if x: x.show()]: the call is made, then it returns or raises as the
    collaborator does. *)
Definition show_if {A} (truthy : A → bool) (shows : A → option exn)
    (x : option A) (what : string) : Py unit :=
  match x with
  | Some a => if truthy a then emit (ShowOf what) ;; reply (shows a) else ret tt
  | None => ret tt
  end.

(** [show()] *)
Definition show : Py unit :=
  let* me := get_self in
  if _future me then
    let* job := attr_of (_job me) "poll_once" in
    job_poll_once job
  else
    match _model_json me with
    | None => print "No model trained yet"
    | Some doc =>
        let* id := model_id in
        match id with
        | None => print "This H2OEstimator has been removed."
        | Some _ =>
            let model := output doc in
            print "Model Details" ;;
            print "=============" ;;
            print (class_name me +:+ " :  " +:+ algo_full_name doc) ;;
            print ("Model Key:  " +:+ str_of (_id me)) ;;
            summary ;;
            print "" ;;
            show_if metrics_truthy metrics_show (training_metrics model)
                    "training_metrics" ;;
            show_if metrics_truthy metrics_show (validation_metrics model)
                    "validation_metrics" ;;
            show_if metrics_truthy metrics_show (cross_validation_metrics model)
                    "cross_validation_metrics" ;;
            let* xms := subscript_key (cross_validation_metrics_summary model)
                                      "cross_validation_metrics_summary" in
            show_if table_truthy table_show xms "cross_validation_metrics_summary" ;;
            show_if table_truthy table_show (mjoin (scoring_history_tbl model))
                    "scoring_history" ;;
            show_if table_truthy table_show (mjoin (variable_importances model))
                    "variable_importances"
        end
    end.

End ModelBase.

(** * The methods that fetch frames, models and files

    [weights], [biases], [coef], [coef_norm], the cross-validation
    getters, the three prediction methods and the two downloads read the
    object without changing it and talk to the cluster through [h2o.api],
    [h2o.get_frame], [h2o.get_model] and [H2OJob].  They raise built-in
    exceptions the methods above do not, so they get their own exception
    type and a monad that threads the log of requests. *)

Module Artifacts.

Inductive pyexn : Type :=
  | ValueError (msg : string)
  | IndexError (msg : string)
  | KeyError (key : string)
  | Builtin (e : exn).

(** What [h2o.get_model] hands back. *)
Record H2OModel : Type := { model_key : string }.

(** [H2OJob(json, description)] *)
Record Job : Type := { job_json : pyval; job_description : string }.

Inductive request : Type :=
  | GetFrame (key : pyval)
  | GetModel (key : pyval)
  | Post (endpoint : string) (data : option (list (string * pyval)))
  | Get (endpoint : string) (save_to : string)
  | NewJob (json : pyval) (description : string)
  | JobPoll (job : Job)
  | DownloadPojo (model : option string) (path : string) (get_jar : bool).

(** The answers of the collaborators, and [os.path.join], which depends on
    the platform. *)
Record Server : Type := {
  get_frame_reply : pyval → pyexn + H2OFrame;
  get_model_reply : pyval → pyexn + H2OModel;
  post_reply : string → option (list (string * pyval)) → pyexn + pyval;
  get_reply : string → string → pyexn + string;
  new_job_reply : pyval → string → option pyexn;
  (** [j.poll()]: [j.dest_key] once the job is done *)
  poll_reply : Job → pyexn + string;
  download_pojo_reply : option string → string → bool → pyexn + string;
  path_join : string → string → string;
}.

Definition Act (A : Type) : Type :=
  Server → list request → (pyexn + A) * list request.

Definition ret {A} (a : A) : Act A := λ _ log, (inr a, log).

Definition raise {A} (e : pyexn) : Act A := λ _ log, (inl e, log).

Definition bind {A B} (m : Act A) (k : A → Act B) : Act B :=
  λ srv log, match m srv log with
             | (inr a, log') => k a srv log'
             | (inl e, log') => (inl e, log')
             end.

Notation "'let*' x ':=' m 'in' k" := (bind m (λ x, k))
  (at level 10, x name, m at level 100, k at level 200).
Notation "m ';;' k" := (bind m (λ _, k))
  (at level 100, k at level 200, right associativity).

(** A request is logged, then answered. *)
Definition call {A} (r : request) (answer : Server → pyexn + A) : Act A :=
  λ srv log, (answer srv, (log ++ [r])%list).

Definition h2o_get_frame (key : pyval) : Act H2OFrame :=
  call (GetFrame key) (λ srv, get_frame_reply srv key).

Definition h2o_get_model (key : pyval) : Act H2OModel :=
  call (GetModel key) (λ srv, get_model_reply srv key).

Definition h2o_api_post (endpoint : string) (data : option (list (string * pyval)))
    : Act pyval :=
  call (Post endpoint data) (λ srv, post_reply srv endpoint data).

Definition h2o_api_get (endpoint save_to : string) : Act string :=
  call (Get endpoint save_to) (λ srv, get_reply srv endpoint save_to).

Definition new_job (json : pyval) (description : string) : Act Job :=
  call (NewJob json description)
       (λ srv, match new_job_reply srv json description with
               | Some e => inl e
               | None => inr {| job_json := json; job_description := description |}
               end).

Definition job_poll (job : Job) : Act string :=
  call (JobPoll job) (λ srv, poll_reply srv job).

Definition h2o_download_pojo (model : option string) (path : string) (get_jar : bool)
    : Act string :=
  call (DownloadPojo model path get_jar)
       (λ srv, download_pojo_reply srv model path get_jar).

(** ** Python operations *)

Definition type_name (v : pyval) : string :=
  match v with
  | VNone => "NoneType"
  | VBool _ => "bool"
  | VNum _ => "float"
  | VStr _ => "str"
  | VDict _ => "dict"
  end.

Fixpoint dict_find (items : list (string * pyval)) (key : string) : option pyval :=
  match items with
  | [] => None
  | (k, v) :: rest => if String.eqb k key then Some v else dict_find rest key
  end.

(** [x[key]] for a string key. *)
Definition getitem (x : pyval) (key : string) : Act pyval :=
  match x with
  | VDict items =>
      match dict_find items key with
      | Some v => ret v
      | None => raise (KeyError key)
      end
  | VStr _ => raise (Builtin (TypeError "string indices must be integers"))
  | _ => raise (Builtin (TypeError
           ("'" +:+ type_name x +:+ "' object is not subscriptable")))
  end.

(** [d[key]] where [d] is a dict known to the model by its fields: a key the
    server did not send is missing. *)
Definition field {A} (x : option A) (key : string) : Act A :=
  match x with
  | Some a => ret a
  | None => raise (KeyError key)
  end.

(** [l[i]] *)
Definition index {A} (l : list A) (i : nat) : Act A :=
  match l !! i with
  | Some a => ret a
  | None => raise (IndexError "list index out of range")
  end.

Definition is_slash (c : ascii) : bool := Ascii.eqb c "/"%char.

(** [s.split("/")] *)
Fixpoint split_slash (s : string) : list string :=
  match s with
  | EmptyString => [EmptyString]
  | String c rest =>
      if is_slash c then EmptyString :: split_slash rest
      else match split_slash rest with
           | head :: tail => String c head :: tail
           | [] => [String c EmptyString]
           end
  end.

(** [x.split("/")]: only a string has the method. *)
Definition call_split (x : pyval) : Act (list string) :=
  match x with
  | VStr s => ret (split_slash s)
  | _ => raise (Builtin (AttributeError
           ("'" +:+ type_name x +:+ "' object has no attribute 'split'")))
  end.

(** [s.rstrip("/")] *)
Fixpoint rstrip_slash (s : string) : string :=
  match s with
  | EmptyString => EmptyString
  | String c rest =>
      match rstrip_slash rest with
      | EmptyString => if is_slash c then EmptyString else String c EmptyString
      | kept => String c kept
      end
  end.

(** [i in list(range(n))] *)
Definition in_range (n : nat) (i : Z) : bool :=
  (0 <=? i)%Z && (i <? Z.of_nat n)%Z.

(** [len(x)] where [x] is a list or [None]. *)
Definition len {A} (x : option (list A)) : Act nat :=
  match x with
  | Some l => ret (length l)
  | None => raise (Builtin (TypeError "object of type 'NoneType' has no len()"))
  end.

(** [{k: v for k, v in pairs}]: a later pair replaces an earlier one with
    the same key. *)
Definition dict_of_pairs (pairs : list (string * pyval)) : gmap string pyval :=
  foldl (λ d kv, <[kv.1 := kv.2]> d) ∅ pairs.

(** [[f(x) for x in l]] with a call that may raise. *)
Fixpoint for_each {A B} (f : A → Act B) (l : list A) : Act (list B) :=
  match l with
  | [] => ret []
  | x :: rest =>
      let* y := f x in
      let* ys := for_each f rest in
      ret (y :: ys)
  end.

(** ** The object *)

(** The columns of the coefficients table that [coef] and [coef_norm]
    read with [tbl["names"]], ... *)
Record CoefficientsTable : Type := {
  names : list string;
  coefficients : list pyval;
  standardized_coefficients : list pyval;
}.

(** The keys of [_model_json["output"]] these methods read.  The outer
    [None] is a key the server did not send (the keys differ by algorithm),
    the inner one a null. *)
Record Output : Type := {
  weights_key : option (option (list pyval));
  biases_key : option (option (list pyval));
  coefficients_table : option (option CoefficientsTable);
  cross_validation_models_key : option (option (list pyval));
  cross_validation_predictions_key : option (option (list pyval));
  cross_validation_holdout_predictions_frame_id : option pyval;
  cross_validation_fold_assignment_frame_id : option pyval;
}.

Record ModelJson : Type := {
  algo_key : string;
  output : Output;
}.

(** [algo] is a class attribute of the estimators; [ModelBase] itself has
    none. *)
Record ModelBase : Type := {
  class_name : string;
  algo : option string;
  _id : option string;
  _model_json : option ModelJson;
  _is_xvalidated : bool;
  _xval_keys : option (list string);
}.

Definition model_id (self : ModelBase) : option string := _id self.

(** [self._model_json["output"]] *)
Definition output_of (self : ModelBase) : Act Output :=
  match _model_json self with
  | Some doc => ret (output doc)
  | None => raise (Builtin (TypeError "'NoneType' object is not subscriptable"))
  end.

(** [self._model_json["algo"]] *)
Definition algo_of (self : ModelBase) : Act string :=
  match _model_json self with
  | Some doc => ret (algo_key doc)
  | None => raise (Builtin (TypeError "'NoneType' object is not subscriptable"))
  end.

(** [os.path.join] of this platform. *)
Definition os_path_join (a b : string) : Act string :=
  λ srv log, (inr (path_join srv a b), log).

(** ** [weights] and [biases] *)

(** [weights(matrix_id)]:
<<
    num_weight_matrices = len(self._model_json['output']['weights'])
    if matrix_id not in list(range(num_weight_matrices)):
        raise ValueError("Weight matrix does not exist. ...".format(num_weight_matrices, matrix_id))
    return h2o.get_frame(self._model_json['output']['weights'][matrix_id]['URL'].split('/')[3])
>> *)
Definition weights (self : ModelBase) (matrix_id : Z) : Act H2OFrame :=
  let* out := output_of self in
  let* ws := field (weights_key out) "weights" in
  let* num_weight_matrices := len ws in
  if negb (in_range num_weight_matrices matrix_id) then
    raise (ValueError
             ("Weight matrix does not exist. Model has " +:+ pretty num_weight_matrices
              +:+ " weight matrices (0-based indexing), but matrix "
              +:+ pretty matrix_id +:+ " was requested."))
  else
    let* ref := index (from_option id [] ws) (Z.to_nat matrix_id) in
    let* url := getitem ref "URL" in
    let* parts := call_split url in
    let* key := index parts 3 in
    h2o_get_frame (VStr key).

(** [biases(vector_id)] *)
Definition biases (self : ModelBase) (vector_id : Z) : Act H2OFrame :=
  let* out := output_of self in
  let* bs := field (biases_key out) "biases" in
  let* num_bias_vectors := len bs in
  if negb (in_range num_bias_vectors vector_id) then
    raise (ValueError
             ("Bias vector does not exist. Model has " +:+ pretty num_bias_vectors
              +:+ " bias vectors (0-based indexing), but vector "
              +:+ pretty vector_id +:+ " was requested."))
  else
    let* ref := index (from_option id [] bs) (Z.to_nat vector_id) in
    let* url := getitem ref "URL" in
    let* parts := call_split url in
    let* key := index parts 3 in
    h2o_get_frame (VStr key).

(** ** [coef] and [coef_norm] *)

(** [coef()]:
<<
    tbl = self._model_json["output"]["coefficients_table"]
    if tbl is None: return None
    return {name: coef for name, coef in zip(tbl['names'], tbl['coefficients'])}
>> *)
Definition coef (self : ModelBase) : Act (option (gmap string pyval)) :=
  let* out := output_of self in
  let* tbl := field (coefficients_table out) "coefficients_table" in
  match tbl with
  | None => ret None
  | Some tbl => ret (Some (dict_of_pairs (zip (names tbl) (coefficients tbl))))
  end.

(** [coef_norm()] *)
Definition coef_norm (self : ModelBase) : Act (option (gmap string pyval)) :=
  let* out := output_of self in
  let* tbl := field (coefficients_table out) "coefficients_table" in
  match tbl with
  | None => ret None
  | Some tbl =>
      ret (Some (dict_of_pairs (zip (names tbl) (standardized_coefficients tbl))))
  end.

(** ** Cross-validation models and frames *)

(** [get_xval_models(key)]: one model, or the list of all of them. *)
Definition get_xval_models (self : ModelBase) (key : pyval)
    : Act (H2OModel + list H2OModel) :=
  match key with
  | VNone =>
      match _xval_keys self with
      | None => raise (Builtin (TypeError "'NoneType' object is not iterable"))
      | Some keys =>
          let* models := for_each (λ k, h2o_get_model (VStr k)) keys in
          ret (inr models)
      end
  | _ => let* model := h2o_get_model key in ret (inl model)
  end.

(** [xvals] *)
Definition xvals (self : ModelBase) : Act (H2OModel + list H2OModel) :=
  get_xval_models self VNone.

(** [cross_validation_models()] *)
Definition cross_validation_models (self : ModelBase) : Act (option (list H2OModel)) :=
  let* out := output_of self in
  let* cvmodels := field (cross_validation_models_key out) "cross_validation_models" in
  match cvmodels with
  | None => ret None
  | Some cvmodels =>
      let* m := for_each (λ p, let* name := getitem p "name" in h2o_get_model name)
                         cvmodels in
      ret (Some m)
  end.

(** [cross_validation_predictions()] *)
Definition cross_validation_predictions (self : ModelBase)
    : Act (option (list H2OFrame)) :=
  let* out := output_of self in
  let* preds := field (cross_validation_predictions_key out)
                      "cross_validation_predictions" in
  match preds with
  | None => ret None
  | Some preds =>
      let* m := for_each (λ p, let* name := getitem p "name" in h2o_get_frame name)
                         preds in
      ret (Some m)
  end.

(** [if x is None: return None; return h2o.get_frame(x["name"])] *)
Definition frame_of_reference (x : pyval) : Act (option H2OFrame) :=
  match x with
  | VNone => ret None
  | _ =>
      let* name := getitem x "name" in
      let* frame := h2o_get_frame name in
      ret (Some frame)
  end.

(** [cross_validation_holdout_predictions()] *)
Definition cross_validation_holdout_predictions (self : ModelBase)
    : Act (option H2OFrame) :=
  let* out := output_of self in
  let* preds := field (cross_validation_holdout_predictions_frame_id out)
                      "cross_validation_holdout_predictions_frame_id" in
  frame_of_reference preds.

(** [cross_validation_fold_assignment()] *)
Definition cross_validation_fold_assignment (self : ModelBase)
    : Act (option H2OFrame) :=
  let* out := output_of self in
  let* fid := field (cross_validation_fold_assignment_frame_id out)
                    "cross_validation_fold_assignment_frame_id" in
  frame_of_reference fid.

(** ** Predictions *)

Definition predictions_endpoint (version : string) (id : option string)
    (frame : string) : string :=
  "POST /" +:+ version +:+ "/Predictions/models/" +:+ str_of id
  +:+ "/frames/" +:+ frame.

(** [predict_leaf_node_assignment(test_data)] *)
Definition predict_leaf_node_assignment (self : ModelBase) (test_data : test_arg)
    : Act H2OFrame :=
  match test_data with
  | NotFrame _ => raise (ValueError "test_data must be an instance of H2OFrame")
  | IsFrame frame =>
      let* j := h2o_api_post
                  (predictions_endpoint "3" (model_id self) (frame_id frame))
                  (Some [("leaf_node_assignment", VBool true)]) in
      let* predictions_frame := getitem j "predictions_frame" in
      let* name := getitem predictions_frame "name" in
      h2o_get_frame name
  end.

(** [predict(test_data)]; the arguments of [H2OJob(...)] are evaluated from
    left to right, the request first. *)
Definition predict (self : ModelBase) (test_data : test_arg) : Act H2OFrame :=
  match test_data with
  | NotFrame _ => raise (ValueError "test_data must be an instance of H2OFrame")
  | IsFrame frame =>
      let* json := h2o_api_post
                     (predictions_endpoint "4" (model_id self) (frame_id frame))
                     None in
      let* algo := algo_of self in
      let* j := new_job json (algo +:+ " prediction") in
      let* dest_key := job_poll j in
      h2o_get_frame (VStr dest_key)
  end.

(** [deepfeatures(test_data, layer)] *)
Definition deepfeatures (self : ModelBase) (test_data : test_arg) (layer : pyval)
    : Act H2OFrame :=
  match test_data with
  | NotFrame VNone => raise (ValueError "Must specify test data")
  | NotFrame other =>
      raise (Builtin (AttributeError
               ("'" +:+ type_name other +:+ "' object has no attribute 'frame_id'")))
  | IsFrame frame =>
      let* json := h2o_api_post
                     (predictions_endpoint "4" (_id self) (frame_id frame))
                     (Some [("deep_features_hidden_layer", layer)]) in
      let* j := new_job json "deepfeatures" in
      let* dest_key := job_poll j in
      h2o_get_frame (VStr dest_key)
  end.

(** ** Downloads *)

(** [download_pojo(path, get_genmodel_jar)] *)
Definition download_pojo (self : ModelBase) (path : string) (get_genmodel_jar : bool)
    : Act string :=
  let path := rstrip_slash path in
  h2o_download_pojo (_id self) path get_genmodel_jar.

Definition mojo_algos : list string := ["drf"; "gbm"; "deepwater"; "glrm"; "glm"].

(** [download_mojo(path, get_genmodel_jar)] *)
Definition download_mojo (self : ModelBase) (path : string) (get_genmodel_jar : bool)
    : Act string :=
  match algo self with
  | None =>
      raise (Builtin (AttributeError
               ("'" +:+ class_name self +:+ "' object has no attribute 'algo'")))
  | Some algo =>
      if negb (existsb (String.eqb algo) mojo_algos) then
        raise (Builtin (H2OValueError
                 ("MOJOs are currently supported for Distributed Random Forest, "
                  +:+ "Gradient Boosting Machine, Deep Water, GLM and GLRM models only.")))
      else
        (if get_genmodel_jar then
           let* jar := os_path_join path "h2o-genmodel.jar" in
           h2o_api_get "GET /3/h2o-genmodel.jar" jar ;; ret tt
         else ret tt) ;;
        h2o_api_get ("GET /3/Models/" +:+ str_of (model_id self) +:+ "/mojo") path
  end.

End Artifacts.

(** ** Test doubles

    A collaborator instance in which a metrics view is its raw JSON block
    and a method reads the entry named after it. *)

#[global] Instance json_views : Collaborators := {|
  Metrics := list (string * pyval);
  Table := string;
  DataFrame := string;
  RawMetrics := list (string * pyval);
  metric_call := λ s view, dict_get view (method_name s);
  metrics_truthy := λ _, true;
  table_truthy := λ _, true;
  metrics_show := λ _, None;
  table_show := λ _, None;
  as_data_frame := λ t, t;
  make_metrics := λ raw _, from_option id [] raw;
|}.

Definition cluster_ok : Cluster :=
  {| rapids_reply := λ _, None;
     api_model_metrics := λ _, inr [];
     poll_once_reply := λ _, None |}.

Definition cluster_down : Cluster :=
  {| rapids_reply := λ _, Some (H2OServerError "HTTP 500");
     api_model_metrics := λ _, inl (H2OServerError "HTTP 500");
     poll_once_reply := λ _, None |}.

(** [training_metrics = {mse: 0.5}], [validation_metrics = None] *)
Definition doc_mse_half : ModelJson :=
  {| algo := "gbm";
     algo_full_name := "Gradient Boosting Machine";
     output := {| training_metrics := Some [("mse", VNum (1 # 2))];
                  validation_metrics := None;
                  cross_validation_metrics := None;
                  cross_validation_metrics_summary := Some None;
                  model_summary := None;
                  scoring_history_tbl := None;
                  variable_importances := None |} |}.

(** A GLM-like document with training and validation deviances. *)
Definition doc_glm : ModelJson :=
  {| algo := "glm";
     algo_full_name := "Generalized Linear Modeling";
     output := {| training_metrics :=
                    Some [("mse", VNum (1 # 4)); ("residual_deviance", VNum 3);
                          ("null_deviance", VNum 9)];
                  validation_metrics :=
                    Some [("mse", VNum (1 # 3)); ("residual_deviance", VNum 7);
                          ("null_deviance", VNum 11)];
                  cross_validation_metrics := None;
                  cross_validation_metrics_summary := Some None;
                  model_summary := Some (Some "summary");
                  scoring_history_tbl := Some None;
                  variable_importances := None |} |}.

Definition params_two : gmap string Parm :=
  <["training_frame" := {| default_value := VNone;
                           actual_value := VDict [("name", VStr "X")] |}]>
  (<["ntrees" := {| default_value := VNum 50; actual_value := VNum 20 |}]> ∅).

(** A model trained without a validation frame: the server sends null
    for [validation_frame]. *)
Definition params_no_validation : gmap string Parm :=
  <["training_frame" := {| default_value := VNone;
                           actual_value := VDict [("name", VStr "X")] |}]>
  (<["validation_frame" := {| default_value := VNone; actual_value := VNone |}]> ∅).

Definition model_A (doc : option ModelJson) (ps : gmap string Parm) : ModelBase :=
  {| class_name := "H2OGradientBoostingEstimator";
     _id := Some "modelA";
     _model_json := doc;
     parms := ps;
     _estimator_type := "regressor";
     _future := false;
     _job := None |}.

Definition model_pending (doc : option ModelJson) : ModelBase :=
  {| class_name := "H2OGradientBoostingEstimator";
     _id := Some "modelA";
     _model_json := doc;
     parms := ∅;
     _estimator_type := "regressor";
     _future := true;
     _job := Some {| job_key := "job_1" |} |}.

Definition world_of (o : ModelBase) (c : Cluster) : World :=
  {| self := o; cluster := c; log := [] |}.

Definition world_ready : World := world_of (model_A (Some doc_mse_half) params_two) cluster_ok.
Definition world_glm : World := world_of (model_A (Some doc_glm) params_two) cluster_ok.
Definition world_unbuilt : World := world_of (model_A None ∅) cluster_ok.
Definition world_pending : World := world_of (model_pending (Some doc_mse_half)) cluster_ok.
Definition world_no_validation : World :=
  world_of (model_A (Some doc_mse_half) params_no_validation) cluster_ok.

(** A model whose identifier was cleared while its document stayed. *)
Definition model_removed : ModelBase :=
  {| class_name := "H2OGradientBoostingEstimator";
     _id := None;
     _model_json := Some doc_glm;
     parms := ∅;
     _estimator_type := "regressor";
     _future := false;
     _job := None |}.

Definition test_frame : H2OFrame := {| frame_id := "test.hex" |}.

Definition mm_no_frame : ModelMetricsJson :=
  {| mm_frame := None; mm_raw := [("mse", VNum 1)] |}.
Definition mm_train : ModelMetricsJson :=
  {| mm_frame := Some "train.hex"; mm_raw := [("mse", VNum 2)] |}.
Definition mm_test : ModelMetricsJson :=
  {| mm_frame := Some "test.hex"; mm_raw := [("mse", VNum 3)] |}.
Definition mm_test_again : ModelMetricsJson :=
  {| mm_frame := Some "test.hex"; mm_raw := [("mse", VNum 4)] |}.

(** A cluster whose metrics endpoint lists blocks of several frames. *)
Definition cluster_metrics : Cluster :=
  {| rapids_reply := λ _, None;
     api_model_metrics := λ _, inr [mm_no_frame; mm_train; mm_test; mm_test_again];
     poll_once_reply := λ _, None |}.

Definition world_removed : World := world_of model_removed cluster_ok.
Definition world_metrics : World :=
  world_of (model_A (Some doc_glm) params_two) cluster_metrics.
Definition world_down : World :=
  world_of (model_A (Some doc_glm) params_two) cluster_down.

(** Training and cross-validation metrics with several statistics, no
    validation metrics. *)
Definition doc_scored : ModelJson :=
  {| algo := "gbm";
     algo_full_name := "Gradient Boosting Machine";
     output := {| training_metrics :=
                    Some [("mse", VNum (1 # 2)); ("auc", VNum (9 # 10))];
                  validation_metrics := None;
                  cross_validation_metrics := Some [("auc", VNum (7 # 10))];
                  cross_validation_metrics_summary := Some None;
                  model_summary := None;
                  scoring_history_tbl := None;
                  variable_importances := None |} |}.

(** A document sent without the key [cross_validation_metrics_summary]. *)
Definition doc_no_cv_summary : ModelJson :=
  {| algo := "gbm";
     algo_full_name := "Gradient Boosting Machine";
     output := {| training_metrics := Some [("mse", VNum (1 # 2))];
                  validation_metrics := None;
                  cross_validation_metrics := None;
                  cross_validation_metrics_summary := None;
                  model_summary := Some (Some "summary");
                  scoring_history_tbl := None;
                  variable_importances := None |} |}.

Definition world_scored : World :=
  world_of (model_A (Some doc_scored) params_two) cluster_ok.
Definition world_no_cv_summary : World :=
  world_of (model_A (Some doc_no_cv_summary) params_two) cluster_ok.
Definition world_pending_glm : World :=
  world_of (model_pending (Some doc_glm)) cluster_ok.
Definition world_pending_unbuilt : World :=
  world_of (model_pending None) cluster_ok.

(** A deep-learning-like model for the fetching methods, and servers. *)
Definition key_ref (name url : string) : pyval :=
  VDict [("name", VStr name); ("URL", VStr url)].

Definition coefficients_demo : Artifacts.CoefficientsTable :=
  {| Artifacts.names := ["Intercept"; "x1"; "x2"];
     Artifacts.coefficients := [VNum 1; VNum 2; VNum 3];
     Artifacts.standardized_coefficients := [VNum 4; VNum 5; VNum 6] |}.

Definition weights_demo : list pyval :=
  [key_ref "w0" "/3/Frames/weights_0"; key_ref "w1" "/3/Frames/weights_1"].
Definition biases_demo : list pyval :=
  [key_ref "b0" "/3/Frames/biases_0"; key_ref "b1" "/3/Frames/biases_1"].
Definition cv_refs_demo : list pyval :=
  [key_ref "cv_1" "/3/Models/cv_1"; key_ref "cv_2" "/3/Models/cv_2"].

Definition output_demo : Artifacts.Output :=
  {| Artifacts.weights_key := Some (Some weights_demo);
     Artifacts.biases_key := Some (Some biases_demo);
     Artifacts.coefficients_table := Some (Some coefficients_demo);
     Artifacts.cross_validation_models_key := Some (Some cv_refs_demo);
     Artifacts.cross_validation_predictions_key := Some None;
     Artifacts.cross_validation_holdout_predictions_frame_id :=
       Some (key_ref "holdout" "/3/Frames/holdout");
     Artifacts.cross_validation_fold_assignment_frame_id := Some VNone |}.

Definition document_demo : Artifacts.ModelJson :=
  {| Artifacts.algo_key := "deeplearning"; Artifacts.output := output_demo |}.

Definition estimator_demo : Artifacts.ModelBase :=
  {| Artifacts.class_name := "H2ODeepLearningEstimator";
     Artifacts.algo := Some "deeplearning";
     Artifacts._id := Some "modelA";
     Artifacts._model_json := Some document_demo;
     Artifacts._is_xvalidated := true;
     Artifacts._xval_keys := Some ["cv_1"; "cv_2"] |}.

(** The object as [__init__] leaves it. *)
Definition estimator_fresh : Artifacts.ModelBase :=
  {| Artifacts.class_name := "ModelBase";
     Artifacts.algo := None;
     Artifacts._id := None;
     Artifacts._model_json := None;
     Artifacts._is_xvalidated := false;
     Artifacts._xval_keys := None |}.

Definition estimator_gbm : Artifacts.ModelBase :=
  {| Artifacts.class_name := "H2OGradientBoostingEstimator";
     Artifacts.algo := Some "gbm";
     Artifacts._id := Some "modelA";
     Artifacts._model_json := None;
     Artifacts._is_xvalidated := false;
     Artifacts._xval_keys := None |}.

Definition posix_join (a b : string) : string :=
  if String.eqb a "" then b else a +:+ "/" +:+ b.

Definition server_ok : Artifacts.Server :=
  {| Artifacts.get_frame_reply := λ key,
       match key with
       | VStr s => inr {| frame_id := s |}
       | _ => inl (Artifacts.ValueError "bad key")
       end;
     Artifacts.get_model_reply := λ key,
       match key with
       | VStr s => inr {| Artifacts.model_key := s |}
       | _ => inl (Artifacts.ValueError "bad key")
       end;
     Artifacts.post_reply := λ _ _,
       inr (VDict [("predictions_frame", VDict [("name", VStr "leaf_frame")])]);
     Artifacts.get_reply := λ _ save_to, inr save_to;
     Artifacts.new_job_reply := λ _ _, None;
     Artifacts.poll_reply := λ _, inr "prediction_frame";
     Artifacts.download_pojo_reply := λ _ path _, inr path;
     Artifacts.path_join := posix_join |}.

(** A server that has lost the second cross-validation model. *)
Definition server_lost_cv2 : Artifacts.Server :=
  {| Artifacts.get_frame_reply := Artifacts.get_frame_reply server_ok;
     Artifacts.get_model_reply := λ key,
       match key with
       | VStr "cv_2" => inl (Artifacts.Builtin (H2OServerError "not found"))
       | other => Artifacts.get_model_reply server_ok other
       end;
     Artifacts.post_reply := Artifacts.post_reply server_ok;
     Artifacts.get_reply := Artifacts.get_reply server_ok;
     Artifacts.new_job_reply := Artifacts.new_job_reply server_ok;
     Artifacts.poll_reply := Artifacts.poll_reply server_ok;
     Artifacts.download_pojo_reply := Artifacts.download_pojo_reply server_ok;
     Artifacts.path_join := posix_join |}.

(** The named accessors, each with the statistic it reads. *)
Definition scalar_accessors `{C : Collaborators}
    : list (statistic * (bool → bool → bool → Py accessor_result)) :=
  [(R2, r2); (MSE, mse); (RMSE, rmse); (MAE, mae); (RMSLE, rmsle);
   (LogLoss, logloss); (MeanResidualDeviance, mean_residual_deviance);
   (AUC, auc); (AIC, aic); (Gini, gini)].

Definition deviance_accessors `{C : Collaborators}
    : list (statistic * (bool → bool → bool → Py pyval)) :=
  [(ResidualDeviance, residual_deviance);
   (ResidualDegreesOfFreedom, residual_degrees_of_freedom);
   (NullDeviance, null_deviance);
   (NullDegreesOfFreedom, null_degrees_of_freedom)].

(** The roles whose selector is true. *)
Definition requested_roles (train valid xval : bool) : gset string :=
  (if train then {["train"]} else ∅) ∪
  (if valid then {["valid"]} else ∅) ∪
  (if xval then {["xval"]} else ∅).

(** The block of the document a role name stands for. *)
Definition block_of `{C : Collaborators} (out : Output) (role : string)
    : option Metrics :=
  if String.eqb role "train" then training_metrics out
  else if String.eqb role "valid" then validation_metrics out
  else cross_validation_metrics out.

(** The world after the call [e] has been logged. *)
Definition logged `{C : Collaborators} (w : World) (e : event) : World :=
  {| self := self w; cluster := cluster w; log := log w ++ [e] |}.

(** The outcome of a call that returns nothing. *)
Definition outcome_of (r : option exn) : outcome unit :=
  match r with
  | None => Return tt
  | Some e => Raise e
  end.

(** What [actual_params] stores for one entry when nothing raises. *)
Definition unwrapped (p : string) (entry : Parm) : pyval :=
  match assoc params_to_select p, actual_value entry with
  | Some field, VDict items => dict_get items field
  | Some _, _ => VNone
  | None, v => v
  end.

(** The references that [actual_params] unwraps are all dicts. *)
Definition references_are_dicts (ps : gmap string Parm) : Prop :=
  ∀ p entry, ps !! p = Some entry →
    is_Some (assoc params_to_select p) → ∃ items, actual_value entry = VDict items.

(** Events that stay on the client: printed lines and [show()] calls. *)
Definition is_local (e : event) : bool :=
  match e with
  | Print _ | ShowOf _ => true
  | _ => false
  end.

(** The world after the events [evs] have been logged. *)
Definition appended `{C : Collaborators} (w : World) (evs : list event) : World :=
  {| self := self w; cluster := cluster w; log := (log w ++ evs)%list |}.

(** A call that, on the object [o], ends as [r], changes nothing of the
    object and logs only client-side events. *)
Definition ends_locally `{C : Collaborators} {A} (o : ModelBase) (m : Py A)
    (r : outcome A) : Prop :=
  ∀ w, self w = o →
    ∃ evs, m w = (r, appended w evs) ∧ forallb is_local evs = true.

(** [if x: x.show()] returns: [x] is absent or falsy, or its [show()]
    returns. *)
Definition show_returns {A} (truthy : A → bool) (shows : A → option exn)
    (x : option A) : Prop :=
  ∀ a, x = Some a → truthy a = true → shows a = None.

(** The block a deviance accessor reads for given flags. *)
Definition deviance_block `{C : Collaborators} (out : Output) (train valid : bool)
    : option Metrics :=
  if train || negb valid then training_metrics out else validation_metrics out.

(** No ["/"] occurs in the string. *)
Fixpoint slash_free (s : string) : bool :=
  match s with
  | EmptyString => true
  | String c rest => negb (Artifacts.is_slash c) && slash_free rest
  end.

(** The value under ["name"] of a key reference. *)
Definition name_of (p : pyval) : option pyval :=
  match p with
  | VDict items => Artifacts.dict_find items "name"
  | _ => None
  end.

(** * Properties *)

Section Properties.

Context `{C : Collaborators}.

(** ** Loops over a dict *)

Lemma for_items_insert {A B} (f : A → B) (d : gmap string A) (w : World) :
  for_items d (λ k v acc, ret (<[k := f v]> acc)) ∅ w = (Return (f <$> d), w).
Proof.
  unfold for_items.
  apply (map_fold_weak_ind
           (λ (r : Py (gmap string B)) (m : gmap string A),
              r w = (Return (f <$> m), w))).
  - by rewrite fmap_empty.
  - intros k v m r _ IH. unfold bind. rewrite IH.
    unfold ret. by rewrite fmap_insert.
Qed.

Lemma world_eta (w : World) :
  {| self := self w; cluster := cluster w; log := log w |} = w.
Proof. by destruct w. Qed.

(** ** Renaming *)


(** ** Metric selection *)

Lemma size_insert_eqb_0 {A} (k : string) (v : A) (m : gmap string A) :
  Nat.eqb (size (<[k := v]> m)) 0 = false.
Proof.
  apply Nat.eqb_neq. apply map_size_non_empty_iff, insert_non_empty.
Qed.

(** On a populated document the selection is the requested entries, or the
    training entry alone. *)
Lemma get_metrics_populated (o : ModelBase) (doc : ModelJson)
    (train valid xval : bool) (w : World) :
  _model_json o = Some doc →
  _get_metrics o train valid xval w =
    (Return
       (let out := output doc in
        if train || valid || xval then
          let m : gmap string (option Metrics) := ∅ in
          let m := if train then <["train" := training_metrics out]> m else m in
          let m := if valid then <["valid" := validation_metrics out]> m else m in
          if xval then <["xval" := cross_validation_metrics out]> m else m
        else {["train" := training_metrics out]}),
     w).
Proof.
  intros Hdoc. unfold _get_metrics. rewrite Hdoc.
  destruct train, valid, xval; cbn -[size insert];
    by rewrite ?size_insert_eqb_0, ?map_size_empty.
Qed.

Ltac lookup_role :=
  match goal with
  | H : ?r ∈ dom _ |- _ =>
      apply elem_of_dom in H; destruct H as [? H]; revert H;
      rewrite ?lookup_insert; repeat case_decide; subst;
      rewrite ?lookup_empty; by (intros [= <-] || intros [=])
  end.

(** C2: on a populated document the selection returns a mapping whose keys
    are exactly the roles whose selector is true, each bound to that role's
    block; with no selector true it is the single entry
    ["train" ↦ training_metrics]. *)
Theorem get_metrics_selects_requested_roles (w : World) (doc : ModelJson)
    (train valid xval : bool) :
  _model_json (self w) = Some doc →
  ∃ m : gmap string (option Metrics),
    _get_metrics (self w) train valid xval w = (Return m, w) ∧
    (train || valid || xval = true →
       dom m = requested_roles train valid xval ∧
       ∀ role, role ∈ dom m → m !! role = Some (block_of (output doc) role)) ∧
    (train = false → valid = false → xval = false →
       m = {["train" := training_metrics (output doc)]}).
Proof.
  intros Hdoc. eexists. split; [by apply get_metrics_populated|].
  destruct train, valid, xval; cbn [orb]; cbv zeta.
  all: split; [intros Hany; try discriminate Hany | intros; try discriminate].
  all: try (split; [ vm_compute; reflexivity | intros role Hrole]).
  all: try reflexivity.
  all: lookup_role.
Qed.

(** ** Scalar accessors *)

Lemma single_or_dict_singleton (k : string) (v : pyval) (w : World) :
  single_or_dict {[k := v]} w = (Return (Single v), w).
Proof.
  unfold single_or_dict. by rewrite map_size_singleton, map_to_list_singleton.
Qed.

Lemma single_or_dict_many (m : gmap string pyval) (w : World) :
  size m ≠ 1 → single_or_dict m w = (Return (PerRole m), w).
Proof.
  intros Hsize. unfold single_or_dict.
  by destruct (Nat.eqb_spec (size m) 1).
Qed.

Lemma single_or_dict_pure (m : gmap string pyval) (w : World) :
  (single_or_dict m w).2 = w.
Proof.
  unfold single_or_dict.
  destruct (Nat.eqb (size m) 1); [|done]. by destruct ((map_to_list m).*2).
Qed.

(** An accessor is the selection, mapped through the statistic, then
    unwrapped when it has one entry. *)
Lemma scalar_accessor_populated (s : statistic) (w : World) (doc : ModelJson)
    (train valid xval : bool) (tm : gmap string (option Metrics)) :
  _get_metrics (self w) train valid xval w = (Return tm, w) →
  scalar_accessor s train valid xval w = single_or_dict (stat_or_none s <$> tm) w.
Proof.
  intros Hsel. unfold scalar_accessor, bind at 1, get_self.
  unfold bind at 1. rewrite Hsel.
  unfold bind. by rewrite for_items_insert.
Qed.

Lemma scalar_accessor_unbuilt (s : statistic) (w : World) (train valid xval : bool) :
  _model_json (self w) = None →
  scalar_accessor s train valid xval w =
    (Raise (TypeError "'NoneType' object is not subscriptable"), w).
Proof.
  intros Hnone. unfold scalar_accessor, _get_metrics, bind, get_self.
  by rewrite Hnone.
Qed.

Lemma scalar_accessor_pure (s : statistic) (w : World) (train valid xval : bool) :
  (scalar_accessor s train valid xval w).2 = w.
Proof.
  destruct (_model_json (self w)) as [doc|] eqn:Hdoc.
  - rewrite (scalar_accessor_populated s w doc train valid xval _
               (get_metrics_populated _ doc train valid xval w Hdoc)).
    apply single_or_dict_pure.
  - by rewrite scalar_accessor_unbuilt.
Qed.

Ltac each_accessor H :=
  apply list_elem_of_In in H; simpl in H;
  repeat (destruct H as [H|H]; [injection H as <- <-|]); [..|destruct H].

(** What an accessor answers on a populated document, by the roles asked
    for. *)
Lemma scalar_accessor_answer (s : statistic) (w : World) (doc : ModelJson)
    (train valid xval : bool) :
  _model_json (self w) = Some doc →
  let roles := requested_roles train valid xval in
  let value := λ role, match block_of (output doc) role with
                       | Some view => metric_call s view
                       | None => VNone
                       end in
  (∀ role, roles = {[role]} ∨ (roles = ∅ ∧ role = "train") →
     scalar_accessor s train valid xval w = (Return (Single (value role)), w)) ∧
  (1 < size roles →
     ∃ m, scalar_accessor s train valid xval w = (Return (PerRole m), w) ∧
          dom m = roles ∧
          ∀ role, role ∈ roles → m !! role = Some (value role)).
Proof.
  intros Hdoc roles value.
  rewrite (scalar_accessor_populated s w doc _ _ _ _
             (get_metrics_populated _ doc train valid xval w Hdoc)).
  split.
  - intros role Hrole.
    assert (Hone : (train || valid || xval = false ∧ role = "train") ∨
                   (train = true ∧ valid = false ∧ xval = false ∧ role = "train") ∨
                   (train = false ∧ valid = true ∧ xval = false ∧ role = "valid") ∨
                   (train = false ∧ valid = false ∧ xval = true ∧ role = "xval")).
    { subst roles. unfold requested_roles in Hrole.
      destruct train, valid, xval; cbn [orb];
        destruct Hrole as [Hrole|[Hrole ->]];
        try (apply (f_equal size) in Hrole; rewrite ?size_singleton in Hrole;
             vm_compute in Hrole; discriminate Hrole);
        try (by left);
        assert (Hin : role ∈ ({[role]} : gset string)) by set_solver;
        rewrite <- Hrole in Hin; clear Hrole;
        repeat (apply elem_of_union in Hin as [Hin|Hin]);
        try (by apply elem_of_empty in Hin);
        apply elem_of_singleton in Hin as ->; tauto. }
    destruct Hone as [[-> ->]|[(-> & -> & -> & ->)|[(-> & -> & -> & ->)|(-> & -> & -> & ->)]]];
      subst value; cbn [orb block_of String.eqb Ascii.eqb Bool.eqb];
      rewrite ?insert_empty, map_fmap_singleton, single_or_dict_singleton;
      reflexivity.
  - intros Hmany.
    assert (Htwo : Nat.b2n train + Nat.b2n valid + Nat.b2n xval ≥ 2).
    { subst roles. unfold requested_roles in Hmany.
      destruct train, valid, xval; cbn; try lia; vm_compute in Hmany; lia. }
    eexists. split; [|split].
    + apply single_or_dict_many. rewrite map_size_fmap.
      destruct train, valid, xval; cbn in Htwo; try lia; by vm_compute.
    + subst roles. unfold requested_roles.
      destruct train, valid, xval; cbn in Htwo; try lia; cbn [orb];
        rewrite dom_fmap_L, ?dom_insert_L, dom_empty_L; set_solver.
    + intros role Hrole. subst roles value. unfold requested_roles in Hrole.
      rewrite lookup_fmap.
      destruct train, valid, xval; cbn in Htwo; try lia; cbn [orb];
        repeat (apply elem_of_union in Hrole as [Hrole|Hrole]);
        try (by apply elem_of_empty in Hrole);
        apply elem_of_singleton in Hrole as ->;
        unfold block_of; cbn;
        rewrite ?lookup_insert_eq, ?lookup_insert_ne, ?lookup_insert_eq by done; cbn;
        match goal with |- context [stat_or_none _ ?b] => by destruct b end.
Qed.

(** C7: a scalar accessor asked for one role, or for none and so for the
    training role, returns that role's value itself, which is [None] when
    the role has no metrics block and the statistic of the block otherwise;
    asked for more than one role it returns the dict that binds each of
    these roles to its value.  On a document with training [mse = 0.5] and
    no validation metrics, [mse()] is [0.5] and [mse(valid=True)] is
    [None]. *)
Theorem scalar_accessor_single_or_mapping
    (s : statistic) (f : bool → bool → bool → Py accessor_result)
    (w : World) (doc : ModelJson) (train valid xval : bool) :
  (s, f) ∈ scalar_accessors →
  _model_json (self w) = Some doc →
  let roles := requested_roles train valid xval in
  let value := λ role, match block_of (output doc) role with
                       | Some view => metric_call s view
                       | None => VNone
                       end in
  (∀ role, roles = {[role]} ∨ (roles = ∅ ∧ role = "train") →
     f train valid xval w = (Return (Single (value role)), w)) ∧
  (1 < size roles →
     ∃ m, f train valid xval w = (Return (PerRole m), w) ∧
          dom m = roles ∧
          ∀ role, role ∈ roles → m !! role = Some (value role)) ∧
  (∀ view, training_metrics (output doc) = Some view →
     validation_metrics (output doc) = None →
     metric_call MSE view = VNum (1 # 2) →
     mse false false false w = (Return (Single (VNum (1 # 2))), w) ∧
     mse false true false w = (Return (Single VNone), w)).
Proof.
  intros Hf Hdoc roles value.
  assert (f = scalar_accessor s) as -> by (each_accessor Hf; reflexivity).
  destruct (scalar_accessor_answer s w doc train valid xval Hdoc) as [Hone Hmany].
  split; [exact Hone|]. split; [exact Hmany|].
  intros view Htrain Hvalid Hhalf. unfold mse. split.
  - destruct (scalar_accessor_answer MSE w doc false false false Hdoc) as [Hdefault _].
    rewrite (Hdefault "train") by (right; split; [set_solver | done]).
    unfold block_of; cbn. by rewrite Htrain, Hhalf.
  - destruct (scalar_accessor_answer MSE w doc false true false Hdoc) as [Hvalid_only _].
    rewrite (Hvalid_only "valid") by (left; unfold requested_roles; set_solver).
    unfold block_of; cbn. by rewrite Hvalid.
Qed.

(** ** Deviance and degrees of freedom *)

Lemma deviance_accessor_train (s : statistic) (w : World) (doc : ModelJson)
    (view : Metrics) (valid : bool) :
  _model_json (self w) = Some doc →
  training_metrics (output doc) = Some view →
  deviance_accessor s true valid false w = (Return (metric_call s view), w).
Proof.
  intros Hdoc Htrain. unfold deviance_accessor, bind, get_self.
  destruct valid; cbn; by rewrite Hdoc; cbn; rewrite Htrain.
Qed.

(** C3: with [train=True] and [valid=True] each deviance and
    degrees-of-freedom accessor returns the value of the training metrics
    alone, whatever the validation metrics are, while every scalar accessor
    called with the same flags returns the dict with both roles. *)
Theorem deviance_train_wins_over_valid
    (s : statistic) (f : bool → bool → bool → Py pyval)
    (w : World) (doc : ModelJson) (view : Metrics) :
  (s, f) ∈ deviance_accessors →
  _model_json (self w) = Some doc →
  training_metrics (output doc) = Some view →
  f true true false w = (Return (metric_call s view), w) ∧
  (∀ s' g, (s', g) ∈ scalar_accessors →
     g true true false w =
       (Return (PerRole (<["valid" := stat_or_none s' (validation_metrics (output doc))]>
                           {["train" := metric_call s' view]})), w)).
Proof.
  intros Hf Hdoc Htrain. split.
  - assert (f = deviance_accessor s) as -> by (each_accessor Hf; reflexivity).
    by apply deviance_accessor_train with doc.
  - intros s' g Hg.
    assert (g = scalar_accessor s') as -> by (each_accessor Hg; reflexivity).
    rewrite (scalar_accessor_populated s' w doc _ _ _ _
               (get_metrics_populated _ doc true true false w Hdoc)).
    cbn [orb]. rewrite !fmap_insert, fmap_empty, Htrain. cbn [stat_or_none].
    apply single_or_dict_many.
    rewrite map_size_insert_None by done.
    by rewrite map_size_singleton.
Qed.

(** C4: with [xval=True] each deviance and degrees-of-freedom accessor
    raises [H2OValueError], whatever [train] and [valid] are and whatever
    the object holds: the document is not looked at. *)
Theorem deviance_xval_raises (w : World) (train valid : bool) :
  let unavailable :=
    (Raise (H2OValueError "Cross-validation metrics are not available."), w) in
  residual_deviance train valid true w = unavailable ∧
  residual_degrees_of_freedom train valid true w = unavailable ∧
  null_deviance train valid true w = unavailable ∧
  null_degrees_of_freedom train valid true w = unavailable.
Proof. by repeat split. Qed.

(** ** [model_performance] without test data *)

(** C10: with [test_data=None] the result is one metrics block chosen by
    priority: the training block when [train] is set or no flag is, else
    the validation block when [valid] is set, else the cross-validation
    block; the selection shared by the scalar accessors keeps every
    requested role instead. *)
Theorem model_performance_priority (w : World) (doc : ModelJson)
    (train valid xval : bool) :
  _model_json (self w) = Some doc →
  model_performance None train valid xval w =
    (Return (if train || negb (valid || xval) then training_metrics (output doc)
             else if valid then validation_metrics (output doc)
             else cross_validation_metrics (output doc)), w) ∧
  ∃ tm : gmap string (option Metrics),
    _get_metrics (self w) train valid xval w = (Return tm, w) ∧
    size tm = Nat.max 1 (Nat.b2n train + Nat.b2n valid + Nat.b2n xval).
Proof.
  intros Hdoc. split.
  - unfold model_performance, bind, get_self.
    destruct train, valid, xval; cbn; by rewrite Hdoc.
  - eexists. split; [by apply get_metrics_populated|].
    destruct train, valid, xval; by vm_compute.
Qed.

(** ** Parameter views *)

Lemma params_fmap (w : World) :
  params w =
    (Return ((λ e, {| default := default_value e; actual := actual_value e |})
               <$> parms (self w)), w).
Proof. unfold params, bind, get_self. apply for_items_insert. Qed.

Lemma default_params_fmap (w : World) :
  default_params w = (Return (default_value <$> parms (self w)), w).
Proof. unfold default_params, bind, get_self. apply for_items_insert. Qed.

(** C8: for every parameter [p] of the snapshot, the entry of
    [full_parameters] has as default the entry of [default_params] and as
    actual value the raw actual value of [p]; the [params] view pairs the
    same two components. *)
Theorem full_parameters_round_trip (w : World) (p : string) (entry : Parm) :
  parms (self w) !! p = Some entry →
  ∃ full dflt view,
    full_parameters w = (Return full, w) ∧
    default_params w = (Return dflt, w) ∧
    params w = (Return view, w) ∧
    default_value <$> full !! p = dflt !! p ∧
    actual_value <$> full !! p = Some (actual_value entry) ∧
    view !! p = Some {| default := default_value entry;
                        actual := actual_value entry |} ∧
    default <$> view !! p = dflt !! p.
Proof.
  intros Hp. eexists _, _, _.
  split; [reflexivity|]. split; [apply default_params_fmap|].
  split; [apply params_fmap|].
  rewrite !lookup_fmap, Hp. by cbn.
Qed.

Lemma actual_params_of_dicts (w : World) :
  references_are_dicts (parms (self w)) →
  actual_params w =
    (Return (map_imap (λ p e, Some (unwrapped p e)) (parms (self w))), w).
Proof.
  unfold actual_params, bind at 1, get_self, for_items.
  generalize (parms (self w)).
  apply (map_fold_weak_ind
           (λ (r : Py (gmap string pyval)) (m : gmap string Parm),
              references_are_dicts m →
              r w = (Return (map_imap (λ p e, Some (unwrapped p e)) m), w))).
  - intros _. by rewrite map_imap_empty.
  - intros p e m r Hfresh IH Hdicts. unfold bind at 1. rewrite IH.
    + rewrite (map_imap_insert_Some _ _ _ _ (unwrapped p e)) by done.
      unfold unwrapped.
      destruct (assoc params_to_select p) as [field|] eqn:Hsel; [|done].
      destruct (Hdicts p e) as [items Hitems];
        [apply lookup_insert_eq | by rewrite Hsel |].
      by rewrite Hitems.
    + intros q e' Hq. apply (Hdicts q e').
      rewrite lookup_insert_ne; [done | congruence].
Qed.

(** ** Reads of an absent document and of a pending model *)

(** C5 (as the code has it): with no job pending and no document, [show()]
    prints ["No model trained yet"] and returns; it makes no other call. *)
Theorem show_unbuilt_reports_not_trained (w : World) :
  _future (self w) = false →
  _model_json (self w) = None →
  show w = (Return tt, logged w (Print "No model trained yet")).
Proof.
  intros Hready Hnone. unfold show, bind, get_self. by rewrite Hready, Hnone.
Qed.

(** C6 (as the code has it): while a job is pending, [show()] makes one
    [poll_once] call on the job handle and nothing else, and returns as
    that call does.  A metrics read (a scalar accessor, a deviance or
    degrees-of-freedom accessor, [model_performance] without test data)
    makes no call on the job and none on the cluster and leaves the object
    as it is: it answers from the document the object holds.  A scalar
    accessor returns the value of the one role asked for ([None] for an
    absent block) or the dict over the roles asked for; a deviance accessor
    raises for [xval], and otherwise returns the statistic of the block it
    reads or raises [AttributeError] when that block is [None];
    [model_performance] returns the block chosen by priority.  With no
    document each of them raises [TypeError], a deviance accessor with
    [xval] still [H2OValueError]. *)
Theorem pending_show_polls_once_metrics_do_not (w : World) (job : H2OJob) :
  _future (self w) = true →
  _job (self w) = Some job →
  show w = (outcome_of (poll_once_reply (cluster w) job), logged w (PollOnce job)) ∧
  (∀ s f, (s, f) ∈ scalar_accessors → ∀ train valid xval,
     match _model_json (self w) with
     | None =>
         f train valid xval w =
           (Raise (TypeError "'NoneType' object is not subscriptable"), w)
     | Some doc =>
         let roles := requested_roles train valid xval in
         let value := λ role, match block_of (output doc) role with
                              | Some view => metric_call s view
                              | None => VNone
                              end in
         (∀ role, roles = {[role]} ∨ (roles = ∅ ∧ role = "train") →
            f train valid xval w = (Return (Single (value role)), w)) ∧
         (1 < size roles →
            ∃ m, f train valid xval w = (Return (PerRole m), w) ∧
                 dom m = roles ∧
                 ∀ role, role ∈ roles → m !! role = Some (value role))
     end) ∧
  (∀ s f, (s, f) ∈ deviance_accessors → ∀ train valid,
     f train valid true w =
       (Raise (H2OValueError "Cross-validation metrics are not available."), w) ∧
     f train valid false w =
       match _model_json (self w) with
       | None => (Raise (TypeError "'NoneType' object is not subscriptable"), w)
       | Some doc =>
           match deviance_block (output doc) train valid with
           | Some view => (Return (metric_call s view), w)
           | None =>
               (Raise (AttributeError
                         ("'NoneType' object has no attribute '"
                          +:+ method_name s +:+ "'")), w)
           end
       end) ∧
  (∀ train valid xval,
     model_performance None train valid xval w =
       match _model_json (self w) with
       | None => (Raise (TypeError "'NoneType' object is not subscriptable"), w)
       | Some doc =>
           (Return (if train || negb (valid || xval) then training_metrics (output doc)
                    else if valid then validation_metrics (output doc)
                    else cross_validation_metrics (output doc)), w)
       end).
Proof.
  intros Hfuture Hjob. split; [|split; [|split]].
  - unfold show, bind, get_self. rewrite Hfuture, Hjob.
    unfold job_poll_once, bind, emit, reply, logged; cbn.
    by destruct (poll_once_reply (cluster w) job).
  - intros s f Hf train valid xval.
    assert (f = scalar_accessor s) as -> by (each_accessor Hf; reflexivity).
    destruct (_model_json (self w)) as [doc|] eqn:Hdoc.
    + by apply scalar_accessor_answer.
    + by apply scalar_accessor_unbuilt.
  - intros s f Hf train valid.
    assert (f = deviance_accessor s) as -> by (each_accessor Hf; reflexivity).
    split; [done|].
    unfold deviance_accessor, deviance_block, bind, get_self.
    destruct (_model_json (self w)) as [doc|];
      destruct train, valid; cbn; try done;
      match goal with |- context [attr_of ?b _] => by destruct b end.
  - intros train valid xval. unfold model_performance, bind, get_self.
    destruct (_model_json (self w)) as [doc|]; by destruct train, valid, xval.
Qed.

End Properties.

(** * The properties at concrete models *)

Lemma in_scalar_accessors_mse : (MSE, mse) ∈ scalar_accessors.
Proof. apply list_elem_of_In. simpl. tauto. Defined.

Lemma in_scalar_accessors_auc : (AUC, auc) ∈ scalar_accessors.
Proof. apply list_elem_of_In. simpl. tauto. Defined.

Lemma in_deviance_accessors_residual :
  (ResidualDeviance, residual_deviance) ∈ deviance_accessors.
Proof. apply list_elem_of_In. simpl. tauto. Defined.


Lemma get_metrics_selects_requested_roles_witness :
  _model_json (self world_glm) = Some doc_glm ∧
  ∃ m : gmap string (option Metrics),
    _get_metrics (self world_glm) true true false world_glm = (Return m, world_glm) ∧
    dom m = requested_roles true true false.
Proof.
  split; [reflexivity|].
  destruct (get_metrics_selects_requested_roles world_glm doc_glm true true false
              eq_refl) as (m & Hsel & Hroles & _).
  exists m. split; [exact Hsel|]. exact (proj1 (Hroles eq_refl)).
Defined.

Lemma deviance_train_wins_over_valid_witness :
  residual_deviance true true false world_glm = (Return (VNum 3), world_glm).
Proof.
  exact (proj1 (deviance_train_wins_over_valid ResidualDeviance residual_deviance
                  world_glm doc_glm _ in_deviance_accessors_residual
                  eq_refl eq_refl)).
Defined.

(** C5: with no document and no job, [summary()], [scoring_history()] and
    [mse()] raise the [TypeError] of subscripting [None]. *)
Lemma reads_of_unbuilt_model_raise_type_error :
  let null_reference := TypeError "'NoneType' object is not subscriptable" in
  _future (self world_unbuilt) = false ∧
  _job (self world_unbuilt) = None ∧
  _model_json (self world_unbuilt) = None ∧
  summary world_unbuilt = (Raise null_reference, world_unbuilt) ∧
  scoring_history world_unbuilt = (Raise null_reference, world_unbuilt) ∧
  mse false false false world_unbuilt = (Raise null_reference, world_unbuilt).
Proof. cbv zeta. by repeat split. Qed.

Lemma show_unbuilt_reports_not_trained_witness :
  show world_unbuilt =
    (Return tt, logged world_unbuilt (Print "No model trained yet")).
Proof.
  exact (show_unbuilt_reports_not_trained world_unbuilt eq_refl eq_refl).
Defined.

(** C6: on a model whose job is pending, [mse()] returns at once with the
    value of the document at hand; the job handle is neither polled nor
    checked. *)
Lemma pending_metrics_read_does_not_poll :
  let job := {| job_key := "job_1" |} in
  let after := mse false false false world_pending in
  _future (self world_pending) = true ∧
  _job (self world_pending) = Some job ∧
  after.1 = Return (Single (VNum (1 # 2))) ∧
  log after.2 = [] ∧
  Poll job ∉ log after.2.
Proof.
  cbv zeta. repeat split; try reflexivity.
  change (log (mse false false false world_pending).2) with (@nil event).
  apply not_elem_of_nil.
Qed.

Lemma pending_show_polls_once_metrics_do_not_witness :
  show world_pending =
    (Return tt, logged world_pending (PollOnce {| job_key := "job_1" |})) ∧
  mse false false false world_pending =
    (Return (Single (VNum (1 # 2))), world_pending) ∧
  auc false true false world_pending_unbuilt =
    (Raise (TypeError "'NoneType' object is not subscriptable"),
     world_pending_unbuilt) ∧
  residual_deviance false true false world_pending_glm =
    (Return (VNum 7), world_pending_glm) ∧
  model_performance None false true false world_pending_glm =
    (Return (validation_metrics (output doc_glm)), world_pending_glm).
Proof.
  destruct (pending_show_polls_once_metrics_do_not world_pending
              {| job_key := "job_1" |} eq_refl eq_refl) as (Hshow & Hreads & _).
  destruct (pending_show_polls_once_metrics_do_not world_pending_unbuilt
              {| job_key := "job_1" |} eq_refl eq_refl) as (_ & Hunbuilt & _).
  destruct (pending_show_polls_once_metrics_do_not world_pending_glm
              {| job_key := "job_1" |} eq_refl eq_refl) as (_ & _ & Hdev & Hperf).
  split; [exact Hshow|]. split.
  { refine (proj1 (Hreads MSE mse in_scalar_accessors_mse false false false) "train" _).
    right. split; [by vm_compute | reflexivity]. }
  split; [exact (Hunbuilt AUC auc in_scalar_accessors_auc false true false)|].
  split; [|exact (Hperf false true false)].
  exact (proj2 (Hdev ResidualDeviance residual_deviance
                  in_deviance_accessors_residual false true)).
Defined.

Lemma scalar_accessor_single_or_mapping_witness :
  mse false false false world_ready = (Return (Single (VNum (1 # 2))), world_ready) ∧
  mse false true false world_ready = (Return (Single VNone), world_ready) ∧
  auc false false false world_scored =
    (Return (Single (VNum (9 # 10))), world_scored) ∧
  auc false true false world_scored = (Return (Single VNone), world_scored) ∧
  ∃ m, auc true false true world_scored = (Return (PerRole m), world_scored) ∧
       m !! "train" = Some (VNum (9 # 10)) ∧
       m !! "xval" = Some (VNum (7 # 10)) ∧
       m !! "valid" = None.
Proof.
  destruct (scalar_accessor_single_or_mapping MSE mse world_ready doc_mse_half
              false false false in_scalar_accessors_mse eq_refl) as (_ & _ & Hmse).
  destruct (Hmse [("mse", VNum (1 # 2))] eq_refl eq_refl eq_refl) as [Hhalf Hnone].
  destruct (scalar_accessor_single_or_mapping AUC auc world_scored doc_scored
              false false false in_scalar_accessors_auc eq_refl) as (Hdefault & _ & _).
  destruct (scalar_accessor_single_or_mapping AUC auc world_scored doc_scored
              false true false in_scalar_accessors_auc eq_refl) as (Hvalid & _ & _).
  destruct (scalar_accessor_single_or_mapping AUC auc world_scored doc_scored
              true false true in_scalar_accessors_auc eq_refl) as (_ & Hmany & _).
  split; [exact Hhalf|]. split; [exact Hnone|]. split.
  { refine (Hdefault "train" _). right. split; [by vm_compute | reflexivity]. }
  split.
  { refine (Hvalid "valid" _). left. by vm_compute. }
  destruct Hmany as (m & Hrun & Hdom & Hvalues); [vm_compute; lia|].
  exists m. split; [exact Hrun|]. split; [|split].
  - refine (Hvalues "train" _). unfold requested_roles. set_solver.
  - refine (Hvalues "xval" _). unfold requested_roles. set_solver.
  - apply not_elem_of_dom. rewrite Hdom. unfold requested_roles.
    intros Hin. repeat (apply elem_of_union in Hin as [Hin|Hin]);
      try (by apply elem_of_empty in Hin);
      by apply elem_of_singleton in Hin.
Defined.

Lemma full_parameters_round_trip_witness :
  ∃ full dflt,
    full_parameters world_ready = (Return full, world_ready) ∧
    default_params world_ready = (Return dflt, world_ready) ∧
    default_value <$> full !! "training_frame" = dflt !! "training_frame" ∧
    actual_value <$> full !! "training_frame" = Some (VDict [("name", VStr "X")]).
Proof.
  destruct (full_parameters_round_trip world_ready "training_frame"
              {| default_value := VNone;
                 actual_value := VDict [("name", VStr "X")] |} eq_refl)
    as (full & dflt & view & Hfull & Hdflt & _ & Hd & Ha & _).
  exists full, dflt. repeat split; assumption.
Defined.

(** C9: with [training_frame = {"name": "X"}] in a snapshot whose
    [validation_frame] is null, [actual_params] raises instead of returning
    a view. *)
Theorem actual_params_raises_on_null_reference :
  parms (self world_no_validation) !! "training_frame" =
    Some {| default_value := VNone; actual_value := VDict [("name", VStr "X")] |} ∧
  actual_params world_no_validation =
    (Raise (AttributeError "'NoneType' object has no attribute 'get'"),
     world_no_validation).
Proof. split; by vm_compute. Qed.

(** When the snapshot holds only dict references the unwrapping is what the
    view shows. *)
Lemma actual_params_unwraps_training_frame :
  ∃ view, actual_params world_ready = (Return view, world_ready) ∧
          view !! "training_frame" = Some (VStr "X") ∧
          view !! "ntrees" = Some (VNum 20).
Proof. eexists. split; [by vm_compute|]. split; by vm_compute. Qed.

Lemma model_performance_priority_witness :
  model_performance None false true true world_glm =
    (Return (validation_metrics (output doc_glm)), world_glm).
Proof.
  exact (proj1 (model_performance_priority world_glm doc_glm false true true eq_refl)).
Defined.

(** * Further properties of the modelled methods *)

Section FurtherProperties.

Context `{C : Collaborators}.

Ltac pick_accessor H :=
  apply list_elem_of_In in H; simpl in H;
  repeat (destruct H as [H|H]; [injection H as <- <-|]); [..|destruct H].

(** ** [show()] *)

Lemma appended_nil (w : World) : appended w [] = w.
Proof. destruct w. unfold appended. cbn. by rewrite app_nil_r. Qed.

Lemma appended_app (w : World) (evs1 evs2 : list event) :
  appended (appended w evs1) evs2 = appended w (evs1 ++ evs2).
Proof. unfold appended. cbn. by rewrite app_assoc. Qed.

Lemma ends_ret {A} (o : ModelBase) (a : A) : ends_locally o (ret a) (Return a).
Proof. intros w _. exists []. by rewrite appended_nil. Qed.

Lemma ends_raise {A} (o : ModelBase) (e : exn) :
  ends_locally o (raise (A := A) e) (Raise e).
Proof. intros w _. exists []. by rewrite appended_nil. Qed.

Lemma ends_bind_return {A B} (o : ModelBase) (m : Py A) (k : A → Py B)
    (a : A) (r : outcome B) :
  ends_locally o m (Return a) → ends_locally o (k a) r →
  ends_locally o (bind m k) r.
Proof.
  intros Hm Hk w Hw. destruct (Hm w Hw) as (evs1 & Hrun1 & Hloc1).
  destruct (Hk (appended w evs1) Hw) as (evs2 & Hrun2 & Hloc2).
  exists (evs1 ++ evs2)%list. unfold bind. rewrite Hrun1, Hrun2, appended_app.
  split; [done|]. rewrite forallb_app. by rewrite Hloc1, Hloc2.
Qed.

Lemma ends_bind_raise {A B} (o : ModelBase) (m : Py A) (k : A → Py B) (e : exn) :
  ends_locally o m (Raise e) → ends_locally o (bind m k) (Raise e).
Proof.
  intros Hm w Hw. destruct (Hm w Hw) as (evs & Hrun & Hloc).
  exists evs. unfold bind. by rewrite Hrun.
Qed.

(** A call that ends locally one way or another, followed by calls that
    do, ends locally. *)
Lemma ends_bind {A B} (o : ModelBase) (m : Py A) (k : A → Py B) :
  (∃ r, ends_locally o m r) → (∀ a, ∃ r, ends_locally o (k a) r) →
  ∃ r, ends_locally o (bind m k) r.
Proof.
  intros [[a|e] Hm] Hk.
  - destruct (Hk a) as [r Hr]. exists r. by apply ends_bind_return with a.
  - exists (Raise e). by apply ends_bind_raise.
Qed.

Lemma ends_print (o : ModelBase) (line : string) :
  ends_locally o (print line) (Return tt).
Proof. intros w _. by exists [Print line]. Qed.

Lemma ends_show_if {A} (o : ModelBase) (truthy : A → bool)
    (shows : A → option exn) (x : option A) (what : string) :
  ∃ r, ends_locally o (show_if truthy shows x what) r.
Proof.
  destruct x as [a|]; cbn; [|eexists; apply ends_ret].
  destruct (truthy a); [|eexists; apply ends_ret].
  exists (outcome_of (shows a)). intros w _. exists [ShowOf what].
  unfold bind, emit, reply. cbn. by destruct (shows a).
Qed.

Lemma ends_show_if_returns {A} (o : ModelBase) (truthy : A → bool)
    (shows : A → option exn) (x : option A) (what : string) :
  show_returns truthy shows x →
  ends_locally o (show_if truthy shows x what) (Return tt).
Proof.
  intros Hreturns. destruct x as [a|]; cbn; [|apply ends_ret].
  destruct (truthy a) eqn:Htruthy; [|apply ends_ret].
  intros w _. exists [ShowOf what].
  unfold bind, emit, reply. cbn. by rewrite (Hreturns a eq_refl Htruthy).
Qed.

Lemma ends_summary (o : ModelBase) (doc : ModelJson) :
  _model_json o = Some doc →
  ends_locally o summary (Return (present (model_summary (output doc)))).
Proof.
  intros Hdoc w <-. unfold summary, bind, get_self. rewrite Hdoc. cbn.
  destruct (present (model_summary (output doc))) as [t|].
  - exists []. by rewrite appended_nil.
  - by exists [Print "No model summary for this model"].
Qed.

(** X1: with no job pending, a document at hand and the identifier [None],
    [show()] prints ["This H2OEstimator has been removed."] and nothing
    else. *)
Theorem show_removed_model (w : World) (doc : ModelJson) :
  _future (self w) = false →
  _model_json (self w) = Some doc →
  _id (self w) = None →
  show w = (Return tt, logged w (Print "This H2OEstimator has been removed.")).
Proof.
  intros Hready Hdoc Hid. unfold show, bind, get_self, model_id.
  rewrite Hready, Hdoc. cbn. unfold bind, get_self. by rewrite Hid.
Qed.

(** X2: with no job pending, a document at hand and an identifier,
    [show()] first prints the four header lines, and whether it returns or
    raises it leaves the object as it is and logs printed lines and
    [show()] calls only, never a request to the cluster or a call on a job.
    When the blocks' [show()] return, it raises [KeyError] on a document
    without the key [cross_validation_metrics_summary], which it subscripts
    unguarded, and returns when the key is there and the tables' [show()]
    return as well. *)
Theorem show_built_model (w : World) (doc : ModelJson) (id : string) :
  _future (self w) = false →
  _model_json (self w) = Some doc →
  _id (self w) = Some id →
  let out := output doc in
  let header := [Print "Model Details"; Print "=============";
                 Print (class_name (self w) +:+ " :  " +:+ algo_full_name doc);
                 Print ("Model Key:  " +:+ id)] in
  (∃ evs, (show w).2 = appended w (header ++ evs) ∧ forallb is_local evs = true) ∧
  (show_returns metrics_truthy metrics_show (training_metrics out) →
   show_returns metrics_truthy metrics_show (validation_metrics out) →
   show_returns metrics_truthy metrics_show (cross_validation_metrics out) →
   match cross_validation_metrics_summary out with
   | None => (show w).1 = Raise (KeyError "cross_validation_metrics_summary")
   | Some xms =>
       show_returns table_truthy table_show xms →
       show_returns table_truthy table_show (mjoin (scoring_history_tbl out)) →
       show_returns table_truthy table_show (mjoin (variable_importances out)) →
       (show w).1 = Return tt
   end).
Proof.
  intros Hready Hdoc Hid out header. subst out.
  assert (Hshow : ∃ rest : Py unit,
            show w = rest (appended w header) ∧
            (∃ r, ends_locally (self w) rest r) ∧
            (show_returns metrics_truthy metrics_show
               (training_metrics (output doc)) →
             show_returns metrics_truthy metrics_show
               (validation_metrics (output doc)) →
             show_returns metrics_truthy metrics_show
               (cross_validation_metrics (output doc)) →
             match cross_validation_metrics_summary (output doc) with
             | None =>
                 ends_locally (self w) rest
                   (Raise (KeyError "cross_validation_metrics_summary"))
             | Some xms =>
                 show_returns table_truthy table_show xms →
                 show_returns table_truthy table_show
                   (mjoin (scoring_history_tbl (output doc))) →
                 show_returns table_truthy table_show
                   (mjoin (variable_importances (output doc))) →
                 ends_locally (self w) rest (Return tt)
             end)).
  { eexists. split; [|split].
    - unfold show, bind at 1, get_self. rewrite Hready, Hdoc.
      unfold bind at 1, model_id, bind at 1, get_self, ret. rewrite Hid.
      do 4 (unfold bind at 1, print at 1, emit at 1; cbn [self cluster log]).
      rewrite <- !app_assoc. cbn [app str_of]. reflexivity.
    - apply ends_bind; [eexists; by apply (ends_summary _ doc) | intros _].
      apply ends_bind; [eexists; apply ends_print | intros _].
      do 3 (apply ends_bind; [apply ends_show_if | intros _]).
      apply ends_bind.
      { destruct (cross_validation_metrics_summary (output doc));
          eexists; [apply ends_ret | apply ends_raise]. }
      intros xms.
      do 2 (apply ends_bind; [apply ends_show_if | intros _]).
      apply ends_show_if.
    - intros Htm Hvm Hxm.
      destruct (cross_validation_metrics_summary (output doc)) as [xms|];
        [intros Hx Hs Hv|];
        (eapply ends_bind_return; [by apply (ends_summary _ doc)|]);
        (eapply ends_bind_return; [apply ends_print|]);
        do 3 (eapply ends_bind_return; [by apply ends_show_if_returns|]).
      + eapply ends_bind_return; [apply ends_ret|].
        do 2 (eapply ends_bind_return; [by apply ends_show_if_returns|]).
        by apply ends_show_if_returns.
      + apply ends_bind_raise, ends_raise. }
  destruct Hshow as (rest & -> & [r Hlocal] & Hends).
  assert (Hself : self (appended w header) = self w) by done.
  split.
  - destruct (Hlocal _ Hself) as (evs & -> & Hloc).
    exists evs. by rewrite appended_app.
  - intros Htm Hvm Hxm. specialize (Hends Htm Hvm Hxm).
    destruct (cross_validation_metrics_summary (output doc)) as [xms|].
    + intros Hx Hs Hv. by destruct (Hends Hx Hs Hv _ Hself) as (evs & -> & _).
    + by destruct (Hends _ Hself) as (evs & -> & _).
Qed.

(** ** [model_performance] with test data *)

(** X3: when [test_data] is given, [train], [valid] and [xval] are
    ignored. *)
Theorem model_performance_ignores_flags (w : World) (test_data : test_arg)
    (train valid xval train' valid' xval' : bool) :
  model_performance (Some test_data) train valid xval w =
  model_performance (Some test_data) train' valid' xval' w.
Proof. by destruct test_data. Qed.

(** X4: with a frame as [test_data] and a document at hand, one request is
    sent, to the metrics endpoint of this model and that frame; when the
    cluster answers, the result is the metrics view built from the first
    item of the answer whose frame carries the name of the test frame, items
    with no frame or another frame before it being skipped. *)
Theorem model_performance_first_matching (w : World) (doc : ModelJson)
    (frame : H2OFrame) (before after : list ModelMetricsJson)
    (mm : ModelMetricsJson) (train valid xval : bool) :
  _model_json (self w) = Some doc →
  api_model_metrics (cluster w)
      (metrics_endpoint (_id (self w)) (frame_id frame)) =
    inr (before ++ mm :: after)%list →
  mm_frame mm = Some (frame_id frame) →
  Forall (λ other, mm_frame other ≠ Some (frame_id frame)) before →
  model_performance (Some (IsFrame frame)) train valid xval w =
    (Return (Some (make_metrics (Some (mm_raw mm)) (algo doc))),
     logged w (Api (metrics_endpoint (_id (self w)) (frame_id frame)))).
Proof.
  intros Hdoc Hreply Hmm Hbefore.
  unfold model_performance, bind at 1, get_self.
  unfold bind at 1, model_id, bind at 1, get_self, ret.
  unfold bind at 1, h2o_api_model_metrics, bind at 1, emit. cbn.
  rewrite Hreply. unfold bind, subscript_json. rewrite Hdoc. cbn.
  unfold logged. do 4 f_equal. unfold select_raw. clear Hreply.
  induction Hbefore as [|other before Hother _ IH]; cbn.
  - rewrite Hmm. by rewrite String.eqb_refl.
  - destruct (mm_frame other) as [name|]; [|exact IH].
    destruct (String.eqb_spec name (frame_id frame)) as [->|_]; [done | exact IH].
Qed.

(** X5: when no item of the answer was computed on the test frame, the
    metrics class is called with [None], and no error is raised. *)
Theorem model_performance_no_matching (w : World) (doc : ModelJson)
    (frame : H2OFrame) (res : list ModelMetricsJson) (train valid xval : bool) :
  _model_json (self w) = Some doc →
  api_model_metrics (cluster w)
      (metrics_endpoint (_id (self w)) (frame_id frame)) = inr res →
  Forall (λ other, mm_frame other ≠ Some (frame_id frame)) res →
  model_performance (Some (IsFrame frame)) train valid xval w =
    (Return (Some (make_metrics None (algo doc))),
     logged w (Api (metrics_endpoint (_id (self w)) (frame_id frame)))).
Proof.
  intros Hdoc Hreply Hres.
  unfold model_performance, bind at 1, get_self.
  unfold bind at 1, model_id, bind at 1, get_self, ret.
  unfold bind at 1, h2o_api_model_metrics, bind at 1, emit. cbn.
  rewrite Hreply. unfold bind, subscript_json. rewrite Hdoc. cbn.
  unfold logged. do 4 f_equal. unfold select_raw. clear Hreply.
  induction Hres as [|other res Hother _ IH]; cbn; [done|].
  destruct (mm_frame other) as [name|]; [|exact IH].
  destruct (String.eqb_spec name (frame_id frame)) as [->|_]; [done | exact IH].
Qed.

(** X6: a [test_data] that is not a frame ends in a [TypeError] (from
    building the message of the intended [ValueError]) before any request
    is sent; a failure of the cluster is passed on after the one request. *)
Theorem model_performance_failures (w : World) (train valid xval : bool) :
  (∀ v, model_performance (Some (NotFrame v)) train valid xval w =
          (Raise (TypeError "must be str, not type"), w)) ∧
  (∀ frame e,
     api_model_metrics (cluster w)
         (metrics_endpoint (_id (self w)) (frame_id frame)) = inl e →
     model_performance (Some (IsFrame frame)) train valid xval w =
       (Raise e, logged w (Api (metrics_endpoint (_id (self w)) (frame_id frame))))).
Proof.
  split; [done|]. intros frame e Hreply.
  unfold model_performance, bind at 1, get_self.
  unfold bind at 1, model_id, bind at 1, get_self, ret.
  unfold bind at 1, h2o_api_model_metrics, bind at 1, emit. cbn.
  by rewrite Hreply.
Qed.

(** ** Renaming twice *)


(** ** [actual_params] on well-formed references *)

(** X8: when each of the four reference parameters that is present holds a
    dict, [actual_params] returns a view with the keys of [parms]; a
    reference parameter is bound to the sub-field of its dict named in
    [params_to_select] ([None] when the dict lacks it), any other parameter
    to its raw actual value. *)
Theorem actual_params_view (w : World) :
  references_are_dicts (parms (self w)) →
  ∃ view, actual_params w = (Return view, w) ∧
    dom view = dom (parms (self w)) ∧
    ∀ p entry, parms (self w) !! p = Some entry →
      match assoc params_to_select p with
      | Some field =>
          ∃ items, actual_value entry = VDict items ∧
                   view !! p = Some (dict_get items field)
      | None => view !! p = Some (actual_value entry)
      end.
Proof.
  intros Hdicts. eexists. split; [by apply actual_params_of_dicts|]. split.
  - apply set_eq. intros p. rewrite !elem_of_dom, map_lookup_imap.
    destruct (parms (self w) !! p); cbn; split; intros [? [=]]; eauto.
  - intros p entry Hp. rewrite map_lookup_imap, Hp.
    cbn -[assoc params_to_select]. unfold unwrapped.
    destruct (assoc params_to_select p) as [field|] eqn:Hsel;
      [|by destruct (actual_value entry)].
    destruct (Hdicts p entry Hp) as [items Hitems]; [by rewrite Hsel|].
    exists items. by rewrite Hitems.
Qed.

(** ** Which block a deviance accessor reads *)

(** X9: without [xval], a deviance or degrees-of-freedom accessor reads the
    training metrics unless [valid] alone is set, then the validation
    metrics; when the block it reads is [None] it raises [AttributeError]
    instead of returning [None]. *)
Theorem deviance_accessor_block (s : statistic)
    (f : bool → bool → bool → Py pyval) (w : World) (doc : ModelJson)
    (train valid : bool) :
  (s, f) ∈ deviance_accessors →
  _model_json (self w) = Some doc →
  f train valid false w =
    match deviance_block (output doc) train valid with
    | Some view => (Return (metric_call s view), w)
    | None =>
        (Raise (AttributeError
                  ("'NoneType' object has no attribute '" +:+ method_name s +:+ "'")),
         w)
    end.
Proof.
  intros Hf Hdoc.
  assert (f = deviance_accessor s) as -> by (pick_accessor Hf; reflexivity).
  unfold deviance_accessor, deviance_block, bind, get_self.
  destruct train, valid; cbn; rewrite Hdoc; cbn;
    match goal with |- context [attr_of ?b _] => by destruct b end.
Qed.

End FurtherProperties.

(** * The further properties at concrete models *)

Lemma show_removed_model_witness :
  show world_removed =
    (Return tt, logged world_removed (Print "This H2OEstimator has been removed.")).
Proof. exact (show_removed_model world_removed doc_glm eq_refl eq_refl eq_refl). Defined.

Lemma show_built_model_witness :
  (show world_glm).1 = Return tt ∧
  (show world_no_cv_summary).1 = Raise (KeyError "cross_validation_metrics_summary") ∧
  ∃ evs,
    (show world_no_cv_summary).2 =
      appended world_no_cv_summary
        ([Print "Model Details"; Print "=============";
          Print "H2OGradientBoostingEstimator :  Gradient Boosting Machine";
          Print "Model Key:  modelA"] ++ evs) ∧
    forallb is_local evs = true.
Proof.
  destruct (show_built_model world_glm doc_glm "modelA" eq_refl eq_refl eq_refl)
    as [_ Hreturns].
  destruct (show_built_model world_no_cv_summary doc_no_cv_summary "modelA"
              eq_refl eq_refl eq_refl) as [Hlocal Hraises].
  split; [|split; [|exact Hlocal]].
  - apply Hreturns; by intros a _ _.
  - apply Hraises; by intros a _ _.
Defined.

Lemma model_performance_first_matching_witness :
  model_performance (Some (IsFrame test_frame)) false false false world_metrics =
    (Return (Some (mm_raw mm_test)),
     logged world_metrics (Api "POST /3/ModelMetrics/models/modelA/frames/test.hex")).
Proof.
  apply (model_performance_first_matching world_metrics doc_glm test_frame
           [mm_no_frame; mm_train] [mm_test_again] mm_test
           false false false eq_refl eq_refl eq_refl).
  repeat constructor; discriminate.
Defined.

Lemma model_performance_no_matching_witness :
  model_performance (Some (IsFrame {| frame_id := "new.hex" |})) true false false
      world_metrics =
    (Return (Some (make_metrics None "glm")),
     logged world_metrics (Api "POST /3/ModelMetrics/models/modelA/frames/new.hex")).
Proof.
  apply (model_performance_no_matching world_metrics doc_glm
           {| frame_id := "new.hex" |}
           [mm_no_frame; mm_train; mm_test; mm_test_again]
           true false false eq_refl eq_refl).
  repeat constructor; discriminate.
Defined.

Lemma model_performance_failures_witness :
  model_performance (Some (IsFrame test_frame)) false false false world_down =
    (Raise (H2OServerError "HTTP 500"),
     logged world_down (Api "POST /3/ModelMetrics/models/modelA/frames/test.hex")).
Proof.
  exact (proj2 (model_performance_failures world_down false false false)
               test_frame (H2OServerError "HTTP 500") eq_refl).
Defined.


Lemma references_are_dicts_params_two : references_are_dicts params_two.
Proof.
  intros p entry Hp Hsel. unfold params_two in Hp.
  apply lookup_insert_Some in Hp as [[<- <-]|[_ Hp]]; [by eexists|].
  apply lookup_insert_Some in Hp as [[<- _]|[_ Hp]].
  - by destruct Hsel as [field [=]].
  - by rewrite lookup_empty in Hp.
Defined.

Lemma actual_params_view_witness :
  ∃ view, actual_params world_ready = (Return view, world_ready) ∧
          dom view = dom params_two.
Proof.
  destruct (actual_params_view world_ready references_are_dicts_params_two)
    as (view & Hrun & Hdom & _).
  exists view. by split.
Defined.

Lemma deviance_accessor_block_witness :
  residual_deviance false true false world_glm = (Return (VNum 7), world_glm).
Proof.
  exact (deviance_accessor_block ResidualDeviance residual_deviance world_glm doc_glm
           false true in_deviance_accessors_residual eq_refl).
Defined.

(** * Properties of the fetching methods *)

Section ArtifactProperties.

Import Artifacts.

Implicit Types (self : ModelBase) (srv : Server) (log : list request).

(** ** [weights] and [biases] *)

Lemma in_range_false (n : nat) (i : Z) :
  (i < 0 ∨ Z.of_nat n ≤ i)%Z → in_range n i = false.
Proof. unfold in_range. lia. Qed.

Lemma in_range_true (n : nat) (i : Z) :
  (0 ≤ i < Z.of_nat n)%Z → in_range n i = true.
Proof. unfold in_range. lia. Qed.

(** The part the two methods share once the list of layers is at hand. *)
Lemma weights_run self (doc : ModelJson) (layers : list pyval) (i : Z) srv log :
  _model_json self = Some doc →
  weights_key (output doc) = Some (Some layers) →
  weights self i srv log =
    if in_range (length layers) i then
      bind (index layers (Z.to_nat i)) (λ ref,
      bind (getitem ref "URL") (λ url,
      bind (call_split url) (λ parts,
      bind (index parts 3) (λ key, h2o_get_frame (VStr key))))) srv log
    else
      (inl (ValueError
              ("Weight matrix does not exist. Model has " +:+ pretty (length layers)
               +:+ " weight matrices (0-based indexing), but matrix "
               +:+ pretty i +:+ " was requested.")), log).
Proof.
  intros Hdoc Hkey. unfold weights, bind at 1, output_of. rewrite Hdoc. cbn.
  unfold bind at 1, field. rewrite Hkey. cbn. unfold bind at 1, len. cbn.
  by destruct (in_range (length layers) i).
Qed.

Lemma biases_run self (doc : ModelJson) (layers : list pyval) (i : Z) srv log :
  _model_json self = Some doc →
  biases_key (output doc) = Some (Some layers) →
  biases self i srv log =
    if in_range (length layers) i then
      bind (index layers (Z.to_nat i)) (λ ref,
      bind (getitem ref "URL") (λ url,
      bind (call_split url) (λ parts,
      bind (index parts 3) (λ key, h2o_get_frame (VStr key))))) srv log
    else
      (inl (ValueError
              ("Bias vector does not exist. Model has " +:+ pretty (length layers)
               +:+ " bias vectors (0-based indexing), but vector "
               +:+ pretty i +:+ " was requested.")), log).
Proof.
  intros Hdoc Hkey. unfold biases, bind at 1, output_of. rewrite Hdoc. cbn.
  unfold bind at 1, field. rewrite Hkey. cbn. unfold bind at 1, len. cbn.
  by destruct (in_range (length layers) i).
Qed.

Lemma layer_fetch (layers : list pyval) (i : nat) (items : list (string * pyval))
    (url : string) srv log :
  layers !! i = Some (VDict items) →
  dict_find items "URL" = Some (VStr url) →
  bind (index layers i) (λ ref,
  bind (getitem ref "URL") (λ url,
  bind (call_split url) (λ parts,
  bind (index parts 3) (λ key, h2o_get_frame (VStr key))))) srv log =
    match split_slash url !! 3 with
    | Some key => (get_frame_reply srv (VStr key), (log ++ [GetFrame (VStr key)])%list)
    | None => (inl (IndexError "list index out of range"), log)
    end.
Proof.
  intros Hlayer Hurl. unfold bind at 1, index at 1. rewrite Hlayer. cbn.
  unfold bind at 1. rewrite Hurl. cbn. unfold bind, index.
  by destruct (split_slash url !! 3).
Qed.

(** X10: an index below [0] or not below the number of layers makes
    [weights] and [biases] raise [ValueError] with the message that names
    the number of layers and the index; no frame is requested. *)
Theorem weights_biases_out_of_range self (doc : ModelJson) (layers : list pyval)
    (i : Z) srv log :
  _model_json self = Some doc →
  (i < 0 ∨ Z.of_nat (length layers) ≤ i)%Z →
  (weights_key (output doc) = Some (Some layers) →
   weights self i srv log =
     (inl (ValueError
             ("Weight matrix does not exist. Model has " +:+ pretty (length layers)
              +:+ " weight matrices (0-based indexing), but matrix "
              +:+ pretty i +:+ " was requested.")), log)) ∧
  (biases_key (output doc) = Some (Some layers) →
   biases self i srv log =
     (inl (ValueError
             ("Bias vector does not exist. Model has " +:+ pretty (length layers)
              +:+ " bias vectors (0-based indexing), but vector "
              +:+ pretty i +:+ " was requested.")), log)).
Proof.
  intros Hdoc Hout. apply in_range_false in Hout.
  split; intros Hkey.
  - by rewrite (weights_run self doc layers), Hout.
  - by rewrite (biases_run self doc layers), Hout.
Qed.

(** X11: for an index in range whose layer is a dict with a string under
    ["URL"], [weights] and [biases] request exactly one frame, the one named
    by the fourth ["/"]-separated part of the URL, and return what the
    cluster answers; a URL with fewer than four parts ends in [IndexError]
    with no request. *)
Theorem weights_biases_in_range self (doc : ModelJson) (layers : list pyval)
    (i : Z) (items : list (string * pyval)) (url : string) srv log :
  _model_json self = Some doc →
  (0 ≤ i)%Z →
  layers !! Z.to_nat i = Some (VDict items) →
  dict_find items "URL" = Some (VStr url) →
  let fetched :=
    match split_slash url !! 3 with
    | Some key => (get_frame_reply srv (VStr key), (log ++ [GetFrame (VStr key)])%list)
    | None => (inl (IndexError "list index out of range"), log)
    end in
  (weights_key (output doc) = Some (Some layers) → weights self i srv log = fetched) ∧
  (biases_key (output doc) = Some (Some layers) → biases self i srv log = fetched).
Proof.
  intros Hdoc Hpos Hlayer Hurl fetched.
  assert (Hin : in_range (length layers) i = true).
  { apply in_range_true. apply lookup_lt_Some in Hlayer. lia. }
  split; intros Hkey.
  - rewrite (weights_run self doc layers), Hin by done.
    by apply layer_fetch with items.
  - rewrite (biases_run self doc layers), Hin by done.
    by apply layer_fetch with items.
Qed.

Lemma split_slash_free (s : string) :
  slash_free s = true → split_slash s = [s].
Proof.
  induction s as [|c s IH]; [done|]. cbn -[is_slash]. intros [Hc Hs]%andb_prop.
  apply negb_true_iff in Hc. rewrite Hc, IH; done.
Qed.

Lemma split_slash_part (part rest : string) :
  slash_free part = true →
  split_slash (part +:+ "/" +:+ rest) = part :: split_slash rest.
Proof.
  induction part as [|c part IH]; [done|]. cbn -[is_slash].
  intros [Hc Hs]%andb_prop. apply negb_true_iff in Hc.
  change (split_slash (String c (part +:+ "/" +:+ rest)) =
          String c part :: split_slash rest).
  cbn -[is_slash String.append]. by rewrite Hc, IH.
Qed.

(** X12: when the URL of the layer is [p0/p1/p2/key] with no ["/"] inside
    the four parts, as in ["/3/Frames/key"], the frame requested by
    [weights] is [key]. *)
Theorem weights_frame_key self (doc : ModelJson) (layers : list pyval) (i : Z)
    (items : list (string * pyval)) (p0 p1 p2 key : string) srv log :
  _model_json self = Some doc →
  weights_key (output doc) = Some (Some layers) →
  (0 ≤ i)%Z →
  layers !! Z.to_nat i = Some (VDict items) →
  dict_find items "URL" =
    Some (VStr (p0 +:+ "/" +:+ p1 +:+ "/" +:+ p2 +:+ "/" +:+ key)) →
  slash_free p0 = true → slash_free p1 = true → slash_free p2 = true →
  slash_free key = true →
  weights self i srv log =
    (get_frame_reply srv (VStr key), (log ++ [GetFrame (VStr key)])%list).
Proof.
  intros Hdoc Hkey Hpos Hlayer Hurl H0 H1 H2 H3.
  assert (Hin : in_range (length layers) i = true).
  { apply in_range_true. apply lookup_lt_Some in Hlayer. lia. }
  rewrite (weights_run self doc layers), Hin by done.
  rewrite (layer_fetch layers _ items _ srv log Hlayer Hurl).
  by rewrite !split_slash_part, split_slash_free.
Qed.

(** ** [coef] and [coef_norm] *)

Lemma dict_of_pairs_snoc (pairs : list (string * pyval)) (k : string) (v : pyval) :
  dict_of_pairs (pairs ++ [(k, v)]) = <[k := v]> (dict_of_pairs pairs).
Proof. unfold dict_of_pairs. by rewrite foldl_snoc. Qed.

(** The last pair with a given key is the one that stays. *)
Lemma dict_of_pairs_last (before after : list (string * pyval)) (k : string)
    (v : pyval) :
  k ∉ after.*1 →
  dict_of_pairs (before ++ (k, v) :: after) !! k = Some v.
Proof.
  induction after as [|[k' v'] after IH] using rev_ind; intros Hlast.
  - rewrite dict_of_pairs_snoc. apply lookup_insert_eq.
  - rewrite fmap_app, not_elem_of_app in Hlast. destruct Hlast as [Hafter Hk'].
    change (before ++ (k, v) :: after ++ [(k', v')])%list
      with (before ++ ((k, v) :: after) ++ [(k', v')])%list.
    rewrite app_assoc, dict_of_pairs_snoc, lookup_insert_ne; [by apply IH|].
    cbn in Hk'. set_solver.
Qed.

Lemma dict_of_pairs_absent (pairs : list (string * pyval)) (k : string) :
  k ∉ pairs.*1 → dict_of_pairs pairs !! k = None.
Proof.
  induction pairs as [|[k' v'] pairs IH] using rev_ind; intros Habsent.
  - apply lookup_empty.
  - rewrite fmap_app, not_elem_of_app in Habsent. destruct Habsent as [Hpairs Hk'].
    rewrite dict_of_pairs_snoc, lookup_insert_ne; [by apply IH|].
    cbn in Hk'. set_solver.
Qed.

Lemma fst_zip_take {A B} (l : list A) (k : list B) :
  (zip l k).*1 = take (length k) l.
Proof.
  revert k. induction l as [|x l IH]; intros [|y k]; cbn; [done..|].
  by rewrite IH.
Qed.

Lemma dict_of_zip_lookup (keys : list string) (values : list pyval) (i : nat)
    (k : string) (v : pyval) :
  NoDup keys → keys !! i = Some k → values !! i = Some v →
  dict_of_pairs (zip keys values) !! k = Some v.
Proof.
  intros Hnodup Hk Hv.
  assert (Hzip : zip keys values !! i = Some (k, v)).
  { apply lookup_zip_with_Some. eauto. }
  apply list_elem_of_split_length in Hzip as (before & after & Hsplit & Hlen).
  rewrite Hsplit. apply dict_of_pairs_last.
  assert (Hfst : NoDup (zip keys values).*1).
  { rewrite fst_zip_take. eapply sublist_NoDup; [done | apply sublist_take]. }
  rewrite Hsplit, fmap_app, fmap_cons in Hfst. cbn in Hfst.
  apply NoDup_app in Hfst as (_ & _ & Hfst). by apply NoDup_cons in Hfst as [? _].
Qed.

(** X13: when the coefficients table lists distinct names, [coef] binds the
    name in row [i] to the coefficient in row [i] and [coef_norm] to the
    standardized coefficient in row [i]; neither sends a request. *)
Theorem coef_lookup self (doc : ModelJson) (tbl : CoefficientsTable) (i : nat)
    (name : string) srv log :
  _model_json self = Some doc →
  coefficients_table (output doc) = Some (Some tbl) →
  NoDup (names tbl) →
  names tbl !! i = Some name →
  (∀ c, coefficients tbl !! i = Some c →
     ∃ d, coef self srv log = (inr (Some d), log) ∧ d !! name = Some c) ∧
  (∀ c, standardized_coefficients tbl !! i = Some c →
     ∃ d, coef_norm self srv log = (inr (Some d), log) ∧ d !! name = Some c).
Proof.
  intros Hdoc Htbl Hnodup Hname. split; intros c Hc.
  - eexists. split.
    + unfold coef, bind, output_of, field. rewrite Hdoc. cbn. by rewrite Htbl.
    + by apply dict_of_zip_lookup with i.
  - eexists. split.
    + unfold coef_norm, bind, output_of, field. rewrite Hdoc. cbn. by rewrite Htbl.
    + by apply dict_of_zip_lookup with i.
Qed.

(** X14: the dict returned by [coef] has as keys the names of the rows that
    have a coefficient (the shorter of the two columns decides), and when a
    name occurs in several rows the coefficient of the last of them is the
    one kept. *)
Theorem coef_keys_and_duplicates self (doc : ModelJson) (tbl : CoefficientsTable)
    srv log :
  _model_json self = Some doc →
  coefficients_table (output doc) = Some (Some tbl) →
  ∃ d, coef self srv log = (inr (Some d), log) ∧
    (∀ name, name ∉ take (length (coefficients tbl)) (names tbl) → d !! name = None) ∧
    (∀ before after name c,
       zip (names tbl) (coefficients tbl) = (before ++ (name, c) :: after)%list →
       name ∉ after.*1 → d !! name = Some c).
Proof.
  intros Hdoc Htbl. eexists. split; [|split].
  - unfold coef, bind, output_of, field. rewrite Hdoc. cbn. by rewrite Htbl.
  - intros name Habsent. apply dict_of_pairs_absent. by rewrite fst_zip_take.
  - intros before after name c -> Hlast. by apply dict_of_pairs_last.
Qed.

(** X15: [coef] and [coef_norm] return [None] for a null table, raise
    [KeyError] when the document has no coefficients table (a model that is
    not a GLM) and [TypeError] when there is no document; in no case is a
    request sent. *)
Theorem coef_without_table self srv log :
  let run := λ r : pyexn + option (gmap string pyval),
    coef self srv log = (r, log) ∧ coef_norm self srv log = (r, log) in
  match _model_json self with
  | None => run (inl (Builtin (TypeError "'NoneType' object is not subscriptable")))
  | Some doc =>
      match coefficients_table (output doc) with
      | None => run (inl (KeyError "coefficients_table"))
      | Some None => run (inr None)
      | Some (Some _) => True
      end
  end.
Proof.
  cbv zeta. unfold coef, coef_norm, bind, output_of, field.
  destruct (_model_json self) as [doc|]; [|done]. cbn.
  by destruct (coefficients_table (output doc)) as [[tbl|]|].
Qed.

(** ** Cross-validation models and frames *)

(** A list comprehension over a call whose requests all succeed. *)
Lemma for_each_ok {A B} (f : A → Act B) (req : A → request)
    (answer : A → Server → pyexn + B) (l : list A) (results : list B) srv log :
  (∀ x, f x = call (req x) (answer x)) →
  Forall2 (λ x y, answer x srv = inr y) l results →
  for_each f l srv log = (inr results, (log ++ (req <$> l))%list).
Proof.
  intros Hf Hall. revert log.
  induction Hall as [|x y l results Hx _ IH]; intros log; cbn.
  - by rewrite app_nil_r.
  - unfold bind at 1. rewrite Hf. unfold call at 1. rewrite Hx.
    unfold bind at 1. rewrite IH. cbn. by rewrite <- app_assoc.
Qed.

(** The first refusal ends it: what comes after is not requested. *)
Lemma for_each_fails {A B} (f : A → Act B) (req : A → request)
    (answer : A → Server → pyexn + B) (done : list A) (results : list B)
    (x : A) (rest : list A) (e : pyexn) srv log :
  (∀ x, f x = call (req x) (answer x)) →
  Forall2 (λ x y, answer x srv = inr y) done results →
  answer x srv = inl e →
  for_each f (done ++ x :: rest) srv log =
    (inl e, (log ++ (req <$> done) ++ [req x])%list).
Proof.
  intros Hf Hall Hx. revert log.
  induction Hall as [|x' y l results Hx' _ IH]; intros log; cbn.
  - unfold bind at 1. rewrite Hf. unfold call at 1. by rewrite Hx.
  - unfold bind at 1. rewrite Hf. unfold call at 1. rewrite Hx'.
    unfold bind at 1. rewrite IH. cbn. by rewrite <- app_assoc.
Qed.

Lemma get_model_by_name (p : pyval) (n : pyval) :
  name_of p = Some n →
  bind (getitem p "name") (λ name, h2o_get_model name) = h2o_get_model n.
Proof.
  intros Hname. destruct p as [| | | |items]; try done. cbn in Hname.
  unfold bind, getitem. by rewrite Hname.
Qed.

Lemma get_frame_by_name (p : pyval) (n : pyval) :
  name_of p = Some n →
  bind (getitem p "name") (λ name, h2o_get_frame name) = h2o_get_frame n.
Proof.
  intros Hname. destruct p as [| | | |items]; try done. cbn in Hname.
  unfold bind, getitem. by rewrite Hname.
Qed.

(** X16: when the document lists the cross-validation models as references
    with a ["name"] and the cluster hands out each of them,
    [cross_validation_models] requests them one by one in the order of the
    document and returns them in that order; [cross_validation_predictions]
    does the same with frames. *)
Theorem cross_validation_lists self (doc : ModelJson) (refs names : list pyval)
    srv log :
  _model_json self = Some doc →
  Forall2 (λ p n, name_of p = Some n) refs names →
  (∀ models,
     cross_validation_models_key (output doc) = Some (Some refs) →
     Forall2 (λ n m, get_model_reply srv n = inr m) names models →
     cross_validation_models self srv log =
       (inr (Some models), (log ++ (GetModel <$> names))%list)) ∧
  (∀ frames,
     cross_validation_predictions_key (output doc) = Some (Some refs) →
     Forall2 (λ n f, get_frame_reply srv n = inr f) names frames →
     cross_validation_predictions self srv log =
       (inr (Some frames), (log ++ (GetFrame <$> names))%list)).
Proof.
  intros Hdoc Hnames. split.
  - intros models Hkey Hall.
    unfold cross_validation_models, bind at 1, output_of. rewrite Hdoc. cbn.
    unfold bind at 1, field. rewrite Hkey. cbn. unfold bind at 1.
    assert (Hrun : for_each (λ p, bind (getitem p "name") (λ name, h2o_get_model name))
                     refs srv log =
                   (inr models, (log ++ (GetModel <$> names))%list)).
    { clear Hkey. revert models Hall log.
      induction Hnames as [|p n refs names Hp _ IH]; intros models Hall log.
      - apply Forall2_nil_inv_l in Hall as ->. cbn. by rewrite app_nil_r.
      - apply Forall2_cons_inv_l in Hall as (m & models' & Hm & Hall & ->). cbn.
        rewrite (get_model_by_name p n Hp). unfold bind at 1, h2o_get_model, call.
        rewrite Hm. unfold bind at 1. rewrite (IH models' Hall). cbn.
        by rewrite <- app_assoc. }
    by rewrite Hrun.
  - intros frames Hkey Hall.
    unfold cross_validation_predictions, bind at 1, output_of. rewrite Hdoc. cbn.
    unfold bind at 1, field. rewrite Hkey. cbn. unfold bind at 1.
    assert (Hrun : for_each (λ p, bind (getitem p "name") (λ name, h2o_get_frame name))
                     refs srv log =
                   (inr frames, (log ++ (GetFrame <$> names))%list)).
    { clear Hkey. revert frames Hall log.
      induction Hnames as [|p n refs names Hp _ IH]; intros frames Hall log.
      - apply Forall2_nil_inv_l in Hall as ->. cbn. by rewrite app_nil_r.
      - apply Forall2_cons_inv_l in Hall as (f & frames' & Hf & Hall & ->). cbn.
        rewrite (get_frame_by_name p n Hp). unfold bind at 1, h2o_get_frame, call.
        rewrite Hf. unfold bind at 1. rewrite (IH frames' Hall). cbn.
        by rewrite <- app_assoc. }
    by rewrite Hrun.
Qed.

(** X17: the four cross-validation getters return [None] without any
    request when the document holds null under their key. *)
Theorem cross_validation_null self (doc : ModelJson) srv log :
  _model_json self = Some doc →
  (cross_validation_models_key (output doc) = Some None →
   cross_validation_models self srv log = (inr None, log)) ∧
  (cross_validation_predictions_key (output doc) = Some None →
   cross_validation_predictions self srv log = (inr None, log)) ∧
  (cross_validation_holdout_predictions_frame_id (output doc) = Some VNone →
   cross_validation_holdout_predictions self srv log = (inr None, log)) ∧
  (cross_validation_fold_assignment_frame_id (output doc) = Some VNone →
   cross_validation_fold_assignment self srv log = (inr None, log)).
Proof.
  intros Hdoc.
  unfold cross_validation_models, cross_validation_predictions,
    cross_validation_holdout_predictions, cross_validation_fold_assignment,
    bind, output_of, field.
  rewrite Hdoc. cbn. repeat split; by intros ->.
Qed.

(** X18: when the document holds a reference with a ["name"] as holdout
    predictions frame or as fold assignment frame, the getter requests that
    one frame and returns it, or passes on the refusal of the cluster. *)
Theorem cross_validation_frames self (doc : ModelJson) (ref name : pyval) srv log :
  _model_json self = Some doc →
  name_of ref = Some name →
  let fetched :=
    (match get_frame_reply srv name with
     | inr frame => inr (Some frame)
     | inl e => inl e
     end, (log ++ [GetFrame name])%list) in
  (cross_validation_holdout_predictions_frame_id (output doc) = Some ref →
   cross_validation_holdout_predictions self srv log = fetched) ∧
  (cross_validation_fold_assignment_frame_id (output doc) = Some ref →
   cross_validation_fold_assignment self srv log = fetched).
Proof.
  intros Hdoc Hname fetched.
  assert (Hrun : frame_of_reference ref srv log = fetched).
  { destruct ref as [| | | |items]; try done. cbn in Hname.
    unfold frame_of_reference, bind, getitem. rewrite Hname. cbn.
    unfold fetched. by destruct (get_frame_reply srv name). }
  split; intros Hkey.
  - unfold cross_validation_holdout_predictions, bind, output_of, field.
    rewrite Hdoc. cbn. by rewrite Hkey.
  - unfold cross_validation_fold_assignment, bind, output_of, field.
    rewrite Hdoc. cbn. by rewrite Hkey.
Qed.

(** ** [get_xval_models] and [xvals] *)

(** X19: with a key, [get_xval_models] requests that one model whatever
    [_xval_keys] holds; without one, as in [xvals], it raises [TypeError]
    with no request while [_xval_keys] is still [None], and otherwise
    requests the models of all keys in order. *)
Theorem get_xval_models_cases self srv log :
  (∀ key, key ≠ VNone →
     get_xval_models self key srv log =
       (match get_model_reply srv key with
        | inr model => inr (inl model)
        | inl e => inl e
        end, (log ++ [GetModel key])%list)) ∧
  (_xval_keys self = None →
     xvals self srv log =
       (inl (Builtin (TypeError "'NoneType' object is not iterable")), log)) ∧
  (∀ keys models,
     _xval_keys self = Some keys →
     Forall2 (λ k m, get_model_reply srv (VStr k) = inr m) keys models →
     xvals self srv log =
       (inr (inr models), (log ++ (GetModel ∘ VStr <$> keys))%list)).
Proof.
  split; [|split].
  - intros key Hkey. unfold get_xval_models, bind, h2o_get_model, call.
    destruct key; try done; by destruct (get_model_reply srv _).
  - intros Hnone. unfold xvals, get_xval_models. by rewrite Hnone.
  - intros keys models Hkeys Hall. unfold xvals, get_xval_models. rewrite Hkeys.
    unfold bind at 1.
    rewrite (for_each_ok _ (GetModel ∘ VStr) (λ k srv, get_model_reply srv (VStr k))
               keys models srv log); [done | done | done].
Qed.

(** X20: [xvals] stops at the first model the cluster refuses: the models
    of the keys before it have been requested, those after it are not, and
    the refusal is what is raised. *)
Theorem xvals_stops_at_first_failure self (fetched : list string)
    (models : list H2OModel) (key : string) (rest : list string) (e : pyexn)
    srv log :
  _xval_keys self = Some (fetched ++ key :: rest)%list →
  Forall2 (λ k m, get_model_reply srv (VStr k) = inr m) fetched models →
  get_model_reply srv (VStr key) = inl e →
  xvals self srv log =
    (inl e, (log ++ (GetModel ∘ VStr <$> fetched) ++ [GetModel (VStr key)])%list).
Proof.
  intros Hkeys Hall Hkey. unfold xvals, get_xval_models. rewrite Hkeys.
  unfold bind at 1.
  by rewrite (for_each_fails _ (GetModel ∘ VStr) (λ k srv, get_model_reply srv (VStr k))
                fetched models key rest e srv log).
Qed.

(** ** Predictions *)

(** X21: [predict] and [predict_leaf_node_assignment] raise [ValueError]
    for any [test_data] that is not a frame, [deepfeatures] raises it for
    [None] and [AttributeError] for anything else that is not a frame; in
    each case before any request is sent. *)
Theorem predictions_validate_first self (v : pyval) (layer : pyval) srv log :
  predict self (NotFrame v) srv log =
    (inl (ValueError "test_data must be an instance of H2OFrame"), log) ∧
  predict_leaf_node_assignment self (NotFrame v) srv log =
    (inl (ValueError "test_data must be an instance of H2OFrame"), log) ∧
  deepfeatures self (NotFrame VNone) layer srv log =
    (inl (ValueError "Must specify test data"), log) ∧
  (v ≠ VNone →
   deepfeatures self (NotFrame v) layer srv log =
     (inl (Builtin (AttributeError
             ("'" +:+ type_name v +:+ "' object has no attribute 'frame_id'"))), log)).
Proof. repeat split. intros Hv. by destruct v. Qed.

(** X22: on a frame, with a document at hand and every collaborator
    answering, [predict] posts to the version-4 predictions endpoint of
    this model and that frame, wraps the answer in a job described by the
    algorithm, polls the job and then requests the frame under the job's
    destination key, in this order, and returns that frame. *)
Theorem predict_sequence self (doc : ModelJson) (frame : H2OFrame)
    (json : pyval) (dest : string) srv log :
  _model_json self = Some doc →
  let endpoint := predictions_endpoint "4" (_id self) (frame_id frame) in
  let job := {| job_json := json;
                job_description := algo_key doc +:+ " prediction" |} in
  post_reply srv endpoint None = inr json →
  new_job_reply srv json (algo_key doc +:+ " prediction") = None →
  poll_reply srv job = inr dest →
  predict self (IsFrame frame) srv log =
    (get_frame_reply srv (VStr dest),
     (log ++ [Post endpoint None;
              NewJob json (algo_key doc +:+ " prediction");
              JobPoll job;
              GetFrame (VStr dest)])%list).
Proof.
  intros Hdoc endpoint job Hpost Hnew Hpoll.
  unfold predict, bind, h2o_api_post, call, algo_of, model_id, new_job, job_poll,
    h2o_get_frame.
  fold endpoint. rewrite Hpost, Hdoc. cbn. rewrite Hnew. fold job. rewrite Hpoll.
  unfold call. by rewrite <- !app_assoc.
Qed.

(** X23: on a model that holds no document, [predict] has already posted
    the prediction request when it raises [TypeError]. *)
Theorem predict_without_document self (frame : H2OFrame) (json : pyval) srv log :
  _model_json self = None →
  let endpoint := predictions_endpoint "4" (_id self) (frame_id frame) in
  post_reply srv endpoint None = inr json →
  predict self (IsFrame frame) srv log =
    (inl (Builtin (TypeError "'NoneType' object is not subscriptable")),
     (log ++ [Post endpoint None])%list).
Proof.
  intros Hdoc endpoint Hpost.
  unfold predict, bind, h2o_api_post, call, algo_of, model_id.
  fold endpoint. by rewrite Hpost, Hdoc.
Qed.

(** X24: [predict_leaf_node_assignment] posts once with
    [leaf_node_assignment = True] and requests the frame named under
    [predictions_frame] / [name] of the answer; an answer without the key
    [predictions_frame] ends in [KeyError] with no frame requested. *)
Theorem predict_leaf_node_assignment_frame self (frame : H2OFrame)
    (answer : list (string * pyval)) srv log :
  let endpoint := predictions_endpoint "3" (_id self) (frame_id frame) in
  let data := Some [("leaf_node_assignment", VBool true)] in
  post_reply srv endpoint data = inr (VDict answer) →
  (∀ ref name,
     dict_find answer "predictions_frame" = Some ref →
     name_of ref = Some name →
     predict_leaf_node_assignment self (IsFrame frame) srv log =
       (get_frame_reply srv name, (log ++ [Post endpoint data; GetFrame name])%list)) ∧
  (dict_find answer "predictions_frame" = None →
   predict_leaf_node_assignment self (IsFrame frame) srv log =
     (inl (KeyError "predictions_frame"), (log ++ [Post endpoint data])%list)).
Proof.
  intros endpoint data Hpost. split.
  - intros ref name Href Hname. destruct ref as [| | | |items]; try done.
    cbn in Hname.
    unfold predict_leaf_node_assignment, bind, h2o_api_post, call, model_id,
      getitem, h2o_get_frame.
    fold endpoint data. rewrite Hpost, Href. cbn. rewrite Hname. cbn.
    unfold call. by rewrite <- ?app_assoc.
  - intros Hmissing.
    unfold predict_leaf_node_assignment, bind, h2o_api_post, call, model_id, getitem.
    fold endpoint data. by rewrite Hpost, Hmissing.
Qed.

(** ** Downloads *)

Lemma rstrip_slash_strips (s : string) :
  ∃ n, s = rstrip_slash s +:+ String.concat "" (replicate n "/").
Proof.
  induction s as [|c s [n IH]].
  - by exists 0.
  - cbn -[is_slash]. destruct (rstrip_slash s) as [|c' kept] eqn:Hkept.
    + destruct (is_slash c) eqn:Hc.
      * exists (S n). cbn in IH. rewrite IH at 1.
        apply Ascii.eqb_eq in Hc as ->. clear. by destruct n.
      * exists n. cbn. cbn in IH. by rewrite IH at 1.
    + exists n. cbn. cbn in IH. by rewrite IH at 1.
Qed.

Lemma rstrip_slash_no_tail (s head : string) :
  rstrip_slash s ≠ head +:+ "/".
Proof.
  revert head. induction s as [|c s IH]; intros head.
  - by destruct head.
  - cbn -[is_slash]. destruct (rstrip_slash s) as [|c' kept] eqn:Hkept.
    + destruct (is_slash c) eqn:Hc; [by destruct head|].
      destruct head as [|h [|h' head]]; cbn; try done.
      intros [= ->]. by vm_compute in Hc.
    + destruct head as [|h head]; cbn; [by intros [= _ ?]|].
      intros [= _ Heq]. by apply (IH head).
Qed.

(** X25: [download_pojo] makes the one call [h2o.download_pojo] with the
    path cut after its last character other than ["/"]: what is handed over
    never ends in ["/"] and differs from the given path by trailing ["/"]
    only. *)
Theorem download_pojo_path self (path : string) (jar : bool) srv log :
  ∃ stripped n,
    download_pojo self path jar srv log =
      (download_pojo_reply srv (_id self) stripped jar,
       (log ++ [DownloadPojo (_id self) stripped jar])%list) ∧
    path = stripped +:+ String.concat "" (replicate n "/") ∧
    (∀ head, stripped ≠ head +:+ "/").
Proof.
  destruct (rstrip_slash_strips path) as [n Hn].
  exists (rstrip_slash path), n. split; [done|]. split; [done|].
  apply rstrip_slash_no_tail.
Qed.

(** X26: [download_mojo] refuses an algorithm outside drf, gbm, deepwater,
    glrm and glm with [H2OValueError] before any request; for one of these
    it requests the MOJO of the model into [path], after having requested
    [h2o-genmodel.jar] into [os.path.join(path, "h2o-genmodel.jar")] when
    asked to, and a refusal of the jar ends it before the MOJO is
    requested. *)
Theorem download_mojo_requests self (name path : string) srv log :
  algo self = Some name →
  let mojo := "GET /3/Models/" +:+ str_of (_id self) +:+ "/mojo" in
  let jar := path_join srv path "h2o-genmodel.jar" in
  (name ∉ mojo_algos →
   ∀ get_jar, ∃ msg,
     download_mojo self path get_jar srv log =
       (inl (Builtin (H2OValueError msg)), log)) ∧
  (name ∈ mojo_algos →
   download_mojo self path false srv log =
     (get_reply srv mojo path, (log ++ [Get mojo path])%list) ∧
   download_mojo self path true srv log =
     match get_reply srv "GET /3/h2o-genmodel.jar" jar with
     | inr _ =>
         (get_reply srv mojo path,
          (log ++ [Get "GET /3/h2o-genmodel.jar" jar; Get mojo path])%list)
     | inl e => (inl e, (log ++ [Get "GET /3/h2o-genmodel.jar" jar])%list)
     end).
Proof.
  intros Halgo mojo jar.
  assert (Hmem : existsb (String.eqb name) mojo_algos = true ↔ name ∈ mojo_algos).
  { rewrite existsb_exists. setoid_rewrite String.eqb_eq.
    setoid_rewrite <- list_elem_of_In. split; [by intros (? & ? & ->) | eauto]. }
  split.
  - intros Hnot get_jar. eexists. unfold download_mojo. rewrite Halgo.
    assert (Hex : existsb (String.eqb name) mojo_algos = false).
    { apply not_true_is_false. intros Hex. by apply Hnot, Hmem. }
    by rewrite Hex.
  - intros Hin. apply Hmem in Hin.
    unfold download_mojo. rewrite Halgo, Hin. cbn -[String.append].
    unfold bind, h2o_api_get, call, os_path_join, model_id, ret.
    fold mojo jar. split; [done|].
    destruct (get_reply srv "GET /3/h2o-genmodel.jar" jar); [done|].
    by rewrite <- app_assoc.
Qed.

End ArtifactProperties.

(** * The fetching methods at concrete models *)

Section ArtifactWitnesses.

Import Artifacts.

Lemma weights_biases_out_of_range_witness :
  ∃ msg, weights estimator_demo 2 server_ok [] = (inl (ValueError msg), []) ∧
         biases estimator_demo (-1) server_ok [] =
           (inl (ValueError
                   ("Bias vector does not exist. Model has 2 bias vectors "
                    +:+ "(0-based indexing), but vector -1 was requested.")), []).
Proof.
  eexists. split.
  - refine (proj1 (weights_biases_out_of_range estimator_demo document_demo
                     weights_demo 2 server_ok [] eq_refl _) eq_refl). cbn. lia.
  - refine (proj2 (weights_biases_out_of_range estimator_demo document_demo
                     biases_demo (-1) server_ok [] eq_refl _) eq_refl). lia.
Defined.

Lemma weights_biases_in_range_witness :
  biases estimator_demo 1 server_ok [] =
    (inr {| frame_id := "biases_1" |}, [GetFrame (VStr "biases_1")]).
Proof.
  refine (proj2 (weights_biases_in_range estimator_demo document_demo biases_demo 1
                   [("name", VStr "b1"); ("URL", VStr "/3/Frames/biases_1")]
                   "/3/Frames/biases_1" server_ok [] eq_refl _ eq_refl eq_refl)
                eq_refl).
  lia.
Defined.

Lemma weights_frame_key_witness :
  weights estimator_demo 0 server_ok [] =
    (inr {| frame_id := "weights_0" |}, [GetFrame (VStr "weights_0")]).
Proof.
  refine (weights_frame_key estimator_demo document_demo weights_demo 0
            [("name", VStr "w0"); ("URL", VStr "/3/Frames/weights_0")]
            "" "3" "Frames" "weights_0" server_ok [] eq_refl eq_refl _ eq_refl eq_refl
            eq_refl eq_refl eq_refl eq_refl).
  lia.
Defined.

Lemma NoDup_names_demo : NoDup (names coefficients_demo).
Proof. cbn. repeat (constructor; [set_solver|]). constructor. Defined.

Lemma coef_lookup_witness :
  ∃ d, coef estimator_demo server_ok [] = (inr (Some d), []) ∧
       d !! "x1" = Some (VNum 2).
Proof.
  exact (proj1 (coef_lookup estimator_demo document_demo coefficients_demo 1 "x1"
                  server_ok [] eq_refl eq_refl NoDup_names_demo eq_refl)
               (VNum 2) eq_refl).
Defined.

Lemma coef_keys_and_duplicates_witness :
  ∃ d, coef estimator_demo server_ok [] = (inr (Some d), []) ∧
       d !! "x3" = None.
Proof.
  destruct (coef_keys_and_duplicates estimator_demo document_demo coefficients_demo
              server_ok [] eq_refl eq_refl) as (d & Hrun & Hkeys & _).
  exists d. split; [exact Hrun|]. apply Hkeys. cbn. set_solver.
Defined.

Lemma cross_validation_lists_witness :
  cross_validation_models estimator_demo server_ok [] =
    (inr (Some [ {| model_key := "cv_1" |}; {| model_key := "cv_2" |} ]),
     [GetModel (VStr "cv_1"); GetModel (VStr "cv_2")]).
Proof.
  refine (proj1 (cross_validation_lists estimator_demo document_demo cv_refs_demo
                   [VStr "cv_1"; VStr "cv_2"] server_ok [] eq_refl _)
                _ eq_refl _); repeat constructor.
Defined.

Lemma cross_validation_null_witness :
  cross_validation_fold_assignment estimator_demo server_ok [] = (inr None, []) ∧
  cross_validation_predictions estimator_demo server_ok [] = (inr None, []).
Proof.
  destruct (cross_validation_null estimator_demo document_demo server_ok [] eq_refl)
    as (_ & Hpreds & _ & Hfold).
  split; [exact (Hfold eq_refl) | exact (Hpreds eq_refl)].
Defined.

Lemma cross_validation_frames_witness :
  cross_validation_holdout_predictions estimator_demo server_ok [] =
    (inr (Some {| frame_id := "holdout" |}), [GetFrame (VStr "holdout")]).
Proof.
  exact (proj1 (cross_validation_frames estimator_demo document_demo
                  (key_ref "holdout" "/3/Frames/holdout")
                  (VStr "holdout") server_ok [] eq_refl eq_refl) eq_refl).
Defined.

Lemma get_xval_models_cases_witness :
  get_xval_models estimator_fresh (VStr "cv_9") server_ok [] =
    (inr (inl {| model_key := "cv_9" |}), [GetModel (VStr "cv_9")]) ∧
  xvals estimator_fresh server_ok [] =
    (inl (Builtin (TypeError "'NoneType' object is not iterable")), []) ∧
  xvals estimator_demo server_ok [] =
    (inr (inr [ {| model_key := "cv_1" |}; {| model_key := "cv_2" |} ]),
     [GetModel (VStr "cv_1"); GetModel (VStr "cv_2")]).
Proof.
  split; [|split].
  - refine (proj1 (get_xval_models_cases estimator_fresh server_ok []) _ _). done.
  - exact (proj1 (proj2 (get_xval_models_cases estimator_fresh server_ok [])) eq_refl).
  - refine (proj2 (proj2 (get_xval_models_cases estimator_demo server_ok []))
              _ _ eq_refl _). repeat constructor.
Defined.

Lemma xvals_stops_at_first_failure_witness :
  xvals estimator_demo server_lost_cv2 [] =
    (inl (Builtin (H2OServerError "not found")),
     [GetModel (VStr "cv_1"); GetModel (VStr "cv_2")]).
Proof.
  refine (xvals_stops_at_first_failure estimator_demo ["cv_1"]
            [ {| model_key := "cv_1" |} ] "cv_2" [] _ server_lost_cv2 []
            eq_refl _ eq_refl).
  repeat constructor.
Defined.

Lemma predictions_validate_first_witness :
  deepfeatures estimator_demo (NotFrame (VStr "frame.hex")) (VNum 0) server_ok [] =
    (inl (Builtin (AttributeError "'str' object has no attribute 'frame_id'")), []).
Proof.
  refine (proj2 (proj2 (proj2 (predictions_validate_first estimator_demo
                                 (VStr "frame.hex") (VNum 0) server_ok []))) _).
  done.
Defined.

Lemma predict_sequence_witness :
  predict estimator_demo (IsFrame test_frame) server_ok [] =
    (inr {| frame_id := "prediction_frame" |},
     [Post "POST /4/Predictions/models/modelA/frames/test.hex" None;
      NewJob (VDict [("predictions_frame", VDict [("name", VStr "leaf_frame")])])
             "deeplearning prediction";
      JobPoll {| job_json :=
                   VDict [("predictions_frame", VDict [("name", VStr "leaf_frame")])];
                 job_description := "deeplearning prediction" |};
      GetFrame (VStr "prediction_frame")]).
Proof.
  exact (predict_sequence estimator_demo document_demo test_frame _ _ server_ok []
           eq_refl eq_refl eq_refl eq_refl).
Defined.

Lemma predict_without_document_witness :
  predict estimator_gbm (IsFrame test_frame) server_ok [] =
    (inl (Builtin (TypeError "'NoneType' object is not subscriptable")),
     [Post "POST /4/Predictions/models/modelA/frames/test.hex" None]).
Proof.
  exact (predict_without_document estimator_gbm test_frame _ server_ok []
           eq_refl eq_refl).
Defined.

Lemma predict_leaf_node_assignment_frame_witness :
  predict_leaf_node_assignment estimator_demo (IsFrame test_frame) server_ok [] =
    (inr {| frame_id := "leaf_frame" |},
     [Post "POST /3/Predictions/models/modelA/frames/test.hex"
           (Some [("leaf_node_assignment", VBool true)]);
      GetFrame (VStr "leaf_frame")]).
Proof.
  exact (proj1 (predict_leaf_node_assignment_frame estimator_demo test_frame _
                  server_ok [] eq_refl) _ (VStr "leaf_frame") eq_refl eq_refl).
Defined.

Lemma download_mojo_requests_witness :
  download_mojo estimator_gbm "models" true server_ok [] =
    (inr "models",
     [Get "GET /3/h2o-genmodel.jar" "models/h2o-genmodel.jar";
      Get "GET /3/Models/modelA/mojo" "models"]) ∧
  ∃ msg, download_mojo estimator_demo "models" true server_ok [] =
           (inl (Builtin (H2OValueError msg)), []).
Proof.
  split.
  - refine (proj2 (proj2 (download_mojo_requests estimator_gbm "gbm" "models"
                            server_ok [] eq_refl) _)). set_solver.
  - refine (proj1 (download_mojo_requests estimator_demo "deeplearning" "models"
                     server_ok [] eq_refl) _ true). set_solver.
Defined.

End ArtifactWitnesses.
